(** * Dex-Trade API client: signing engine and request dispatcher

    A shallow embedding of [api.py] (classes [DexTradeConfig] and
    [DexTradeAPI]) together with the properties of its request-signing
    pipeline.

    Conventions of the embedding:
    - a Python [str] is a Rocq [string] holding its UTF-8 bytes, so that
      [str.encode()] is the identity on the byte level and the ordinary
      string ordering (by code point) is the bytewise ordering;
    - a Python [dict] is an association list in insertion order whose keys
      are pairwise distinct;
    - exceptions are values of type [exn], computations that may raise
      return a [result];
    - the client object, the objects it shares with its callers and the
      network live in a [world] threaded through a state-and-exception
      monad. *)

From Stdlib Require Import ZArith List String Ascii Bool Lia.
From Stdlib Require Import Permutation Sorted DecimalString DecimalPos DecimalZ.
From stdpp Require Import base decidable list strings sorting.

Import ListNotations.

Local Open Scope Z_scope.
Local Open Scope list_scope.

(** ** SHA-256 (FIPS 180-4), the function behind [hashlib.sha256] *)

Module Sha256.

Definition word (x : Z) : Z := x mod 2 ^ 32.
Definition add32 (x y : Z) : Z := word (x + y).
Definition rotr (n x : Z) : Z :=
  Z.lor (Z.shiftr x n) (word (Z.shiftl x (32 - n))).
Definition shr (n x : Z) : Z := Z.shiftr x n.
Definition lnot32 (x : Z) : Z := Z.lxor x (2 ^ 32 - 1).

Definition Ch (x y z : Z) : Z := Z.lxor (Z.land x y) (Z.land (lnot32 x) z).
Definition Maj (x y z : Z) : Z :=
  Z.lxor (Z.lxor (Z.land x y) (Z.land x z)) (Z.land y z).
Definition bsig0 (x : Z) : Z := Z.lxor (Z.lxor (rotr 2 x) (rotr 13 x)) (rotr 22 x).
Definition bsig1 (x : Z) : Z := Z.lxor (Z.lxor (rotr 6 x) (rotr 11 x)) (rotr 25 x).
Definition ssig0 (x : Z) : Z := Z.lxor (Z.lxor (rotr 7 x) (rotr 18 x)) (shr 3 x).
Definition ssig1 (x : Z) : Z := Z.lxor (Z.lxor (rotr 17 x) (rotr 19 x)) (shr 10 x).

(** The round constants are the first 32 bits of the fractional parts of
    the cube roots of the first 64 primes; the initial hash value uses the
    square roots of the first 8.  They are computed here from that
    description. *)
Definition is_prime (n : Z) : bool :=
  (1 <? n) &&
  forallb (fun d => negb (n mod d =? 0))
          (List.filter (fun d => d * d <=? n) (map Z.of_nat (seq 2 (Z.to_nat n - 2)))).

Definition primes64 : list Z :=
  Eval vm_compute in firstn 64 (List.filter is_prime (map Z.of_nat (seq 2 320))).

Fixpoint icbrt_bits (bits : nat) (n r : Z) : Z :=
  match bits with
  | O => r
  | S b =>
      let c := r + 2 ^ Z.of_nat b in
      if c * c * c <=? n then icbrt_bits b n c else icbrt_bits b n r
  end.
Definition icbrt (n : Z) : Z := icbrt_bits 40 n 0.

Definition K : list Z :=
  Eval vm_compute in map (fun p => word (icbrt (p * 2 ^ 96))) primes64.
Definition H0 : list Z :=
  Eval vm_compute in map (fun p => word (Z.sqrt (p * 2 ^ 64))) (firstn 8 primes64).

(** Padding: a 1 bit, zeros up to 448 mod 512, the bit length on 64 bits. *)
Fixpoint be_bytes (n : nat) (x : Z) : list Z :=
  match n with
  | O => []
  | S n' => (x / 2 ^ (8 * Z.of_nat n')) mod 256 :: be_bytes n' x
  end.

Definition pad (msg : list Z) : list Z :=
  let len := Z.of_nat (length msg) in
  msg ++ [128] ++ repeat 0 (Z.to_nat ((55 - len) mod 64)) ++ be_bytes 8 (8 * len).

Fixpoint words_of_bytes (bs : list Z) : list Z :=
  match bs with
  | a :: b :: c :: d :: rest =>
      (a * 2 ^ 24 + b * 2 ^ 16 + c * 2 ^ 8 + d) :: words_of_bytes rest
  | _ => []
  end.

Fixpoint blocks (n : nat) (ws : list Z) : list (list Z) :=
  match n with
  | O => []
  | S n' => firstn 16 ws :: blocks n' (skipn 16 ws)
  end.

(** Message schedule; [rw] holds the words computed so far, last first. *)
Fixpoint schedule (n : nat) (rw : list Z) : list Z :=
  match n with
  | O => rev rw
  | S n' =>
      let w := add32 (add32 (ssig1 (nth 1 rw 0)) (nth 6 rw 0))
                     (add32 (ssig0 (nth 14 rw 0)) (nth 15 rw 0)) in
      schedule n' (w :: rw)
  end.

Record regs := Regs { ra : Z; rb : Z; rc : Z; rd : Z; re : Z; rf : Z; rg : Z; rh : Z }.

Definition round (s : regs) (kw : Z * Z) : regs :=
  let t1 := add32 (add32 (add32 (rh s) (bsig1 (re s))) (Ch (re s) (rf s) (rg s)))
                  (add32 (fst kw) (snd kw)) in
  let t2 := add32 (bsig0 (ra s)) (Maj (ra s) (rb s) (rc s)) in
  Regs (add32 t1 t2) (ra s) (rb s) (rc s) (add32 (rd s) t1) (re s) (rf s) (rg s).

Definition regs_of (h : list Z) : regs :=
  Regs (nth 0 h 0) (nth 1 h 0) (nth 2 h 0) (nth 3 h 0)
       (nth 4 h 0) (nth 5 h 0) (nth 6 h 0) (nth 7 h 0).
Definition list_of (s : regs) : list Z :=
  [ra s; rb s; rc s; rd s; re s; rf s; rg s; rh s].

Definition compress (h : list Z) (block : list Z) : list Z :=
  let w := schedule 48 (rev block) in
  let s := fold_left round (combine K w) (regs_of h) in
  map (fun p => add32 (fst p) (snd p)) (combine h (list_of s)).

Definition bytes_of_string (s : string) : list Z :=
  map (fun c => Z.of_N (N_of_ascii c)) (list_ascii_of_string s).

(** [hashlib.sha256(data).digest()] as a list of 32 bytes. *)
Definition digest (msg : list Z) : list Z :=
  let ws := words_of_bytes (pad msg) in
  let h := fold_left compress (blocks (length ws / 16) ws) H0 in
  flat_map (be_bytes 4) h.

Definition hex_digit (n : Z) : ascii :=
  nth (Z.to_nat n) (list_ascii_of_string "0123456789abcdef") "0"%char.

Definition hex_of_bytes (bs : list Z) : string :=
  string_of_list_ascii (flat_map (fun b => [hex_digit (b / 16); hex_digit (b mod 16)]) bs).

(** [hashlib.sha256(s.encode()).hexdigest()] *)
Definition hexdigest (s : string) : string := hex_of_bytes (digest (bytes_of_string s)).

End Sha256.

(** ** Python values, exceptions and dictionaries *)

Inductive exn : Type :=
| ValueError (msg : string)
| TypeError (msg : string)
| KeyError (key : string)
| HTTPError (status : Z)
| JSONDecodeError
| ConnectionError (msg : string)
| InvalidReference.

(** The conditions the specification names, as the exceptions the code
    raises for them. *)
Definition MissingSecret : exn :=
  ValueError "Secret key is required for private API calls".
Definition InvalidArgument_rate : exn :=
  ValueError "Rate is required for LIMIT and STOP_LIMIT orders".
Definition InvalidArgument_stop_rate : exn :=
  ValueError "Stop rate is required for STOP_LIMIT orders".
Definition InvalidArgument (e : exn) : Prop :=
  e = InvalidArgument_rate \/ e = InvalidArgument_stop_rate.

Inductive result (A : Type) : Type :=
| Ok (a : A)
| Raise (e : exn).
Arguments Ok {A} a.
Arguments Raise {A} e.

Definition rbind {A B} (r : result A) (k : A -> result B) : result B :=
  match r with
  | Ok a => k a
  | Raise e => Raise e
  end.

Declare Scope result_scope.
Delimit Scope result_scope with result.
Notation "'let*' x ':=' r 'in' k" := (rbind r (fun x => k))
  (at level 10, x name, r at level 100, k at level 200) : result_scope.

(** Scalars a parameter may hold, and a parameter value: a scalar or a
    mapping one level deep.  The endpoint methods turn every float into a
    string with [str] before it enters a parameter set, so no float is a
    parameter value. *)
Inductive scalar : Type :=
| SStr (s : string)
| SInt (n : Z)
| SBool (b : bool)
| SNone.

Inductive value : Type :=
| Scalar (s : scalar)
| Mapping (m : list (string * scalar)).

Abbreviation pydict := (list (string * value)).

(** [str(n)] for an [int]. *)
Definition str_int (n : Z) : string := NilZero.string_of_int (Z.to_int n).

(** [str(v)] for a scalar. *)
Definition py_str (v : scalar) : string :=
  match v with
  | SStr s => s
  | SInt n => str_int n
  | SBool true => "True"
  | SBool false => "False"
  | SNone => "None"
  end.

Section Dict.
Context {V : Type}.

(** [d.get(k)] *)
Fixpoint dict_get (d : list (string * V)) (k : string) : option V :=
  match d with
  | [] => None
  | (k', v) :: d' => if String.eqb k' k then Some v else dict_get d' k
  end.

(** [k in d] *)
Definition dict_contains (d : list (string * V)) (k : string) : bool :=
  match dict_get d k with Some _ => true | None => false end.

(** [d[k] = v]: an existing key keeps its position, a new one goes last. *)
Fixpoint dict_set (d : list (string * V)) (k : string) (v : V) : list (string * V) :=
  match d with
  | [] => [(k, v)]
  | (k', v') :: d' =>
      if String.eqb k' k then (k', v) :: d' else (k', v') :: dict_set d' k v
  end.

(** [dict(items)] *)
Definition dict_of_items (items : list (string * V)) : list (string * V) :=
  fold_left (fun d kv => dict_set d (fst kv) (snd kv)) items [].

Definition dict_items (d : list (string * V)) : list (string * V) := d.
Definition dict_keys (d : list (string * V)) : list string := map fst d.
Definition dict_values (d : list (string * V)) : list V := map snd d.

(** The invariant of a Python dictionary: no key occurs twice. *)
Definition dict_wf (d : list (string * V)) : Prop := NoDup (dict_keys d).
End Dict.

(** A parameter set is well formed when it and its nested mappings are
    dictionaries. *)
Definition value_wf (v : value) : Prop :=
  match v with
  | Scalar _ => True
  | Mapping m => dict_wf m
  end.
Definition params_wf (d : pydict) : Prop :=
  dict_wf d /\ Forall (fun kv => value_wf (snd kv)) d.

#[global] Instance value_wf_dec (v : value) : Decision (value_wf v).
Proof. destruct v; simpl; unfold dict_wf; apply _. Defined.

#[global] Instance params_wf_dec (d : pydict) : Decision (params_wf d).
Proof. unfold params_wf, dict_wf. apply _. Defined.

(** *** Comparisons: [==] and [<] on values, and on the [(key, value)]
    tuples that [sorted(d.items())] compares *)

Definition num_of (v : scalar) : option Z :=
  match v with
  | SInt n => Some n
  | SBool b => Some (if b then 1 else 0)
  | _ => None
  end.

Definition scalar_eqb (a b : scalar) : bool :=
  match a, b with
  | SStr x, SStr y => String.eqb x y
  | SNone, SNone => true
  | _, _ =>
      match num_of a, num_of b with
      | Some x, Some y => x =? y
      | _, _ => false
      end
  end.

Definition unorderable : exn :=
  TypeError "'<' not supported between instances".

Definition scalar_lt (a b : scalar) : result bool :=
  match a, b with
  | SStr x, SStr y => Ok (String.ltb x y)
  | _, _ =>
      match num_of a, num_of b with
      | Some x, Some y => Ok (x <? y)
      | _, _ => Raise unorderable
      end
  end.

(** Two dictionaries are equal when they have the same size and agree on
    every key, whatever the insertion order. *)
Definition mapping_eqb (m1 m2 : list (string * scalar)) : bool :=
  (length m1 =? length m2)%nat &&
  forallb (fun kv => match dict_get m2 (fst kv) with
                     | Some v => scalar_eqb (snd kv) v
                     | None => false
                     end) m1.

Definition value_eqb (a b : value) : bool :=
  match a, b with
  | Scalar x, Scalar y => scalar_eqb x y
  | Mapping x, Mapping y => mapping_eqb x y
  | _, _ => false
  end.

Definition value_lt (a b : value) : result bool :=
  match a, b with
  | Scalar x, Scalar y => scalar_lt x y
  | _, _ => Raise unorderable
  end.

Section Sorted.
Context {V : Type} (veqb : V -> V -> bool) (vlt : V -> V -> result bool).

(** [a < b] on 2-tuples: the first component that differs decides. *)
Definition item_lt (a b : string * V) : result bool :=
  if negb (String.eqb (fst a) (fst b)) then Ok (String.ltb (fst a) (fst b))
  else if negb (veqb (snd a) (snd b)) then vlt (snd a) (snd b)
  else Ok false.

(** [sorted(items)]: a stable sort that only asks [<], inserting each
    item in turn into the sorted run before it; an exception of a
    comparison propagates. *)
Fixpoint insert_item (x : string * V) (l : list (string * V))
  : result (list (string * V)) :=
  match l with
  | [] => Ok [x]
  | y :: l' =>
      (let* b := item_lt x y in
       if b then Ok (x :: y :: l')
       else let* r := insert_item x l' in Ok (y :: r))%result
  end.

Definition sorted (items : list (string * V)) : result (list (string * V)) :=
  fold_left (fun acc x => (let* s := acc in insert_item x s)%result) items (Ok []).
End Sorted.

(** ** Configuration and the signing engine *)

Inductive OrderType : Type := BUY | SELL.

Inductive TradeType : Type := LIMIT | MARKET | STOP_LIMIT | QUICK_MARKET | HIDDEN_LIMIT.

(** [member.value] *)
Definition OrderType_value (t : OrderType) : Z :=
  match t with BUY => 0 | SELL => 1 end.

Definition TradeType_value (t : TradeType) : Z :=
  match t with
  | LIMIT => 0 | MARKET => 1 | STOP_LIMIT => 2 | QUICK_MARKET => 3 | HIDDEN_LIMIT => 4
  end.

Definition TradeType_eqb (a b : TradeType) : bool :=
  TradeType_value a =? TradeType_value b.

Record DexTradeConfig : Type := {
  base_url : string;
  socket_url : string;
  login_token : option string;
  secret : option string
}.

(** [DexTradeConfig(login_token=t, secret=s)] with the declared defaults. *)
Definition make_config (t s : option string) : DexTradeConfig :=
  {| base_url := "https://api.dex-trade.com/v1";
     socket_url := "https://socket.dex-trade.com";
     login_token := t;
     secret := s |}.

(** Truth value of an [Optional[str]]: [None] and the empty string are
    false. *)
Definition truthy (s : option string) : bool :=
  match s with
  | Some s => negb (String.eqb s EmptyString)
  | None => false
  end.

(** The string held by an [Optional[str]] that is true. *)
Definition the_str (s : option string) : string :=
  match s with
  | Some s => s
  | None => EmptyString
  end.

(** The [for key, value in sorted_params.items()] loop of
    [_generate_signature], with [values] as its accumulator. *)
Definition collect_values (sorted_params : pydict) : result (list string) :=
  fold_left
    (fun acc kv =>
       (let* values := acc in
        match snd kv with
        | Mapping m =>
            let* its := sorted scalar_eqb scalar_lt (dict_items m) in
            let nested_sorted := dict_of_items its in
            Ok (values ++ map py_str (dict_values nested_sorted))
        | Scalar s => Ok (values ++ [py_str s])
        end)%result)
    (dict_items sorted_params) (Ok []).

(** The string [values_str] that [_generate_signature] hashes. *)
Definition signing_input (config : DexTradeConfig) (params : pydict)
  : result string :=
  (let* its := sorted value_eqb value_lt (dict_items params) in
   let sorted_params := dict_of_items its in
   let* values := collect_values sorted_params in
   Ok (String.concat EmptyString values ++ the_str (secret config))%string)%result.

Definition _generate_signature (config : DexTradeConfig) (params : pydict)
  : result string :=
  if negb (truthy (secret config)) then Raise MissingSecret
  else
    (let* values_str := signing_input config params in
     Ok (Sha256.hexdigest values_str))%result.

(** ** The world: client object, shared dictionaries, clock and network *)

Abbreviation headers := (list (string * string)).

(** [requests] keeps headers in a case-insensitive dictionary; header
    names are ASCII. *)
Definition lower_ascii (c : ascii) : ascii :=
  let n := nat_of_ascii c in
  if ((65 <=? n) && (n <=? 90))%nat then ascii_of_nat (n + 32) else c.

Fixpoint lower (s : string) : string :=
  match s with
  | EmptyString => EmptyString
  | String c s' => String (lower_ascii c) (lower s')
  end.

Fixpoint header_get (h : headers) (k : string) : option string :=
  match h with
  | [] => None
  | (k', v) :: h' =>
      if String.eqb (lower k') (lower k) then Some v else header_get h' k
  end.

Fixpoint header_set (h : headers) (k v : string) : headers :=
  match h with
  | [] => [(k, v)]
  | (k', v') :: h' =>
      if String.eqb (lower k') (lower k) then (k, v) :: h'
      else (k', v') :: header_set h' k v
  end.

(** [headers.update(new)] *)
Definition headers_update (h new : headers) : headers :=
  fold_left (fun acc kv => header_set acc (fst kv) (snd kv)) new h.

(** Decoded JSON of a response body. *)
#[local] Unset Elimination Schemes.
Inductive json : Type :=
| JNull
| JBool (b : bool)
| JNum (n : Z)
| JStr (s : string)
| JArr (l : list json)
| JObj (l : list (string * json)).
#[local] Set Elimination Schemes.

(** What the session hands to the transport: the verb, the URL, the
    parameters as they are at that moment (query string of a GET, JSON body
    of a POST) and the session's headers. *)
Record request : Type := {
  req_method : string;
  req_url : string;
  req_query : option pydict;
  req_json : option pydict;
  req_headers : headers
}.

Record response : Type := {
  status_code : Z;
  body : option json
}.

(** What the client does not control: the defaults of the HTTP library,
    the clock ([clock n] is [int(time.time() * 1000000)] at the [n]-th
    reading) and the exchange ([server sent r] answers [r] after the
    requests [sent]). *)
Record outside : Type := {
  user_agent : string;
  accept_encoding : string;
  clock : nat -> Z;
  server : list request -> request -> result response
}.

(** References to dict objects are positions in the heap. *)
Abbreviation loc := nat (only parsing).

Record world : Type := {
  out : outside;
  config : DexTradeConfig;       (* self.config *)
  session_headers : headers;     (* self.session.headers *)
  heap : list pydict;            (* the dict objects, by reference *)
  wire : list request;           (* every request given to the transport *)
  ticks : nat                    (* clock readings so far *)
}.

Definition with_headers (h : headers) (w : world) : world :=
  {| out := out w; config := config w; session_headers := h;
     heap := heap w; wire := wire w; ticks := ticks w |}.
Definition with_heap (hp : list pydict) (w : world) : world :=
  {| out := out w; config := config w; session_headers := session_headers w;
     heap := hp; wire := wire w; ticks := ticks w |}.
Definition with_wire (rs : list request) (w : world) : world :=
  {| out := out w; config := config w; session_headers := session_headers w;
     heap := heap w; wire := rs; ticks := ticks w |}.
Definition with_ticks (n : nat) (w : world) : world :=
  {| out := out w; config := config w; session_headers := session_headers w;
     heap := heap w; wire := wire w; ticks := n |}.

(** State and exceptions: a computation returns or raises, and leaves a
    world behind in both cases. *)
Definition M (A : Type) : Type := world -> result A * world.

Definition ret {A} (a : A) : M A := fun w => (Ok a, w).
Definition raise {A} (e : exn) : M A := fun w => (Raise e, w).
Definition bind {A B} (m : M A) (k : A -> M B) : M B :=
  fun w =>
    match m w with
    | (Ok a, w') => k a w'
    | (Raise e, w') => (Raise e, w')
    end.
Definition lift {A} (r : result A) : M A := fun w => (r, w).
Definition get_config : M DexTradeConfig := fun w => (Ok (config w), w).

Declare Scope monad_scope.
Delimit Scope monad_scope with monad.
Notation "'do' x <- m ; k" := (bind m (fun x => k))
  (at level 10, x name, m at level 100, k at level 200) : monad_scope.

(** [{...}]: a new dict object. *)
Definition alloc (d : pydict) : M loc :=
  fun w => (Ok (length (heap w)), with_heap (heap w ++ [d]) w).

Definition deref (p : loc) : M pydict :=
  fun w =>
    match heap w !! p with
    | Some d => (Ok d, w)
    | None => (Raise InvalidReference, w)
    end.

(** [params[k] = v] *)
Definition setitem (p : loc) (k : string) (v : value) : M unit :=
  fun w =>
    match heap w !! p with
    | Some d => (Ok tt, with_heap (<[p := dict_set d k v]> (heap w)) w)
    | None => (Raise InvalidReference, w)
    end.

(** [int(time.time() * 1000000)] *)
Definition time_us : M Z :=
  fun w => (Ok (clock (out w) (ticks w)), with_ticks (S (ticks w)) w).

(** [self.session.headers.update(new)] *)
Definition session_headers_update (new : headers) : M unit :=
  fun w => (Ok tt, with_headers (headers_update (session_headers w) new) w).

(** The contents of an optional dict argument when the request is built. *)
Definition snapshot (params : option loc) : M (option pydict) :=
  match params with
  | None => ret None
  | Some p => (do d <- deref p; ret (Some d))%monad
  end.

Definition transport (r : request) : M response :=
  fun w => (server (out w) (wire w) r, with_wire (wire w ++ [r]) w).

(** [self.session.get(url, params=params)] *)
Definition session_get (url : string) (params : option loc) : M response :=
  (do q <- snapshot params;
   fun w => transport {| req_method := "GET"; req_url := url; req_query := q;
                         req_json := None; req_headers := session_headers w |} w)%monad.

(** [self.session.post(url, json=params)] *)
Definition session_post (url : string) (params : option loc) : M response :=
  (do j <- snapshot params;
   fun w => transport {| req_method := "POST"; req_url := url; req_query := None;
                         req_json := j; req_headers := session_headers w |} w)%monad.

(** [response.raise_for_status()] *)
Definition raise_for_status (r : response) : M unit :=
  if (400 <=? status_code r) && (status_code r <? 600)
  then raise (HTTPError (status_code r)) else ret tt.

(** [response.json()] *)
Definition response_json (r : response) : M json :=
  match body r with
  | Some j => ret j
  | None => raise JSONDecodeError
  end.

(** [not params] for an [Optional[Dict]]. *)
Definition falsy_params (params : option loc) : M bool :=
  match params with
  | None => ret true
  | Some p => (do d <- deref p; ret (match d with [] => true | _ => false end))%monad
  end.

(** ** The client *)

(** [requests.Session()] starts with the library's default headers. *)
Definition default_headers (o : outside) : headers :=
  [("User-Agent", user_agent o); ("Accept-Encoding", accept_encoding o);
   ("Accept", "*/*"); ("Connection", "keep-alive")]%string.

(** [DexTradeAPI(config)]: the world right after construction. *)
Definition __init__ (o : outside) (cfg : DexTradeConfig) : world :=
  {| out := o;
     config := cfg;
     session_headers :=
       if truthy (login_token cfg)
       then headers_update (default_headers o)
              [("login-token", the_str (login_token cfg));
               ("content-type", "application/json")]%string
       else default_headers o;
     heap := [];
     wire := [];
     ticks := 0 |}.

(** The statements of [_make_request], one step each.

    [if not params: params = {}] *)
Definition default_params (params : option loc) : M loc :=
  (do empty <- falsy_params params;
   match empty, params with
   | false, Some p => ret p
   | _, _ => alloc []
   end)%monad.

(** [if 'request_id' not in params:
       params['request_id'] = str(int(time.time() * 1000000))] *)
Definition ensure_request_id (p : loc) : M unit :=
  (do d <- deref p;
   if negb (dict_contains d "request_id")
   then do t <- time_us; setitem p "request_id" (Scalar (SStr (str_int t)))
   else ret tt)%monad.

(** [signature = self._generate_signature(params)
    self.session.headers.update({'x-auth-sign': signature})] *)
Definition sign_request (p : loc) : M unit :=
  (do cfg <- get_config;
   do d <- deref p;
   do signature <- lift (_generate_signature cfg d);
   session_headers_update [("x-auth-sign", signature)]%string)%monad.

(** [if method == 'GET': ... self.session.get(url, params=params)
    else: ... self.session.post(url, json=params)] *)
Definition send (method url : string) (params : option loc) : M response :=
  if String.eqb method "GET" then session_get url params
  else session_post url params.

Definition _make_request (method endpoint : string) (params : option loc)
    (private : bool) : M json :=
  (do cfg <- get_config;
   let url := (base_url cfg ++ endpoint)%string in
   do params <-
     (if private then
        do p <- default_params params;
        do _ <- ensure_request_id p;
        do _ <- sign_request p;
        ret (Some p)
      else ret params);
   do response <- send method url params;
   do _ <- raise_for_status response;
   response_json response)%monad.


(** *** Public API methods *)


Definition get_ticker (pair : string) : M json :=
  (do params <- alloc [("pair", Scalar (SStr pair))]%string;
   _make_request "GET" "/public/ticker" (Some params) false)%monad.

Definition get_order_book (pair : string) : M json :=
  (do params <- alloc [("pair", Scalar (SStr pair))]%string;
   _make_request "GET" "/public/book" (Some params) false)%monad.

Definition get_trade_history (pair : string) : M json :=
  (do params <- alloc [("pair", Scalar (SStr pair))]%string;
   _make_request "GET" "/public/trades" (Some params) false)%monad.

(** *** Private API methods *)

Section Orders.
(** Volumes and rates are Python floats; their type and [str] on it are
    left open. *)
Variable pyfloat : Type.
Variable str_float : pyfloat -> string.

Definition create_order (pair : string) (type_trade : TradeType)
    (order_type : OrderType) (volume : pyfloat)
    (rate stop_rate : option pyfloat) : M json :=
  (do params <- alloc [("pair", Scalar (SStr pair));
                       ("type_trade", Scalar (SInt (TradeType_value type_trade)));
                       ("type", Scalar (SInt (OrderType_value order_type)));
                       ("volume", Scalar (SStr (str_float volume)))]%string;
   do _ <- (if existsb (TradeType_eqb type_trade) [LIMIT; STOP_LIMIT] then
              match rate with
              | None => raise InvalidArgument_rate
              | Some r => setitem params "rate" (Scalar (SStr (str_float r)))
              end
            else ret tt);
   do _ <- (if TradeType_eqb type_trade STOP_LIMIT then
              match stop_rate with
              | None => raise InvalidArgument_stop_rate
              | Some r => setitem params "stop_rate" (Scalar (SStr (str_float r)))
              end
            else ret tt);
   _make_request "POST" "/private/create-order" (Some params) true)%monad.
End Orders.

Definition get_active_orders : M json :=
  (do params <- alloc [];
   _make_request "POST" "/private/orders" (Some params) true)%monad.

Definition get_order (order_id : Z) : M json :=
  (do params <- alloc [("order_id", Scalar (SStr (str_int order_id)))]%string;
   _make_request "POST" "/private/get-order" (Some params) true)%monad.

Definition cancel_order (order_id : Z) : M json :=
  (do params <- alloc [("order_id", Scalar (SStr (str_int order_id)))]%string;
   _make_request "POST" "/private/delete-order" (Some params) true)%monad.

Definition get_balances : M json :=
  (do params <- alloc [];
   _make_request "POST" "/private/balances" (Some params) true)%monad.

Definition get_deposit_address (currency : string) (network : option string)
    (new : bool) : M json :=
  (do params <- alloc [("iso", Scalar (SStr currency));
                       ("new", Scalar (SInt (if new then 1 else 0)))]%string;
   do _ <- (if truthy network
            then setitem params "network" (Scalar (SStr (the_str network)))
            else ret tt);
   _make_request "POST" "/private/get-address" (Some params) true)%monad.

(** ** The signing rule in the words of the specification

    Entries are sorted by key, ascending; a scalar contributes its string
    form, a nested mapping the string forms of its values in the order of
    its sorted keys; the strings are concatenated and the secret appended;
    the signature is the SHA-256 digest in lowercase hexadecimal. *)

Definition key_le {V} (a b : string * V) : Prop := String.leb (fst a) (fst b) = true.
Definition key_lt {V} (a b : string * V) : Prop := String.ltb (fst a) (fst b) = true.

#[global] Instance key_le_dec {V} (a b : string * V) : Decision (key_le a b).
Proof. unfold key_le. destruct (String.leb (fst a) (fst b)); [left | right]; congruence. Defined.

Definition spec_sort_by_key {V} (entries : list (string * V)) : list (string * V) :=
  merge_sort key_le entries.

Definition spec_value_strings (v : value) : list string :=
  match v with
  | Scalar s => [py_str s]
  | Mapping m => map (fun kv => py_str (snd kv)) (spec_sort_by_key m)
  end.

(** The concatenated value strings, before the secret is appended. *)
Definition spec_value_text (params : pydict) : string :=
  String.concat EmptyString (flat_map (fun kv => spec_value_strings (snd kv)) (spec_sort_by_key params)).

Definition spec_signing_string (params : pydict) (secret : string) : string :=
  (spec_value_text params ++ secret)%string.

Definition spec_sign (params : pydict) (secret : string) : string :=
  Sha256.hexdigest (spec_signing_string params secret).

(** A string of lowercase hexadecimal digits. *)
Definition lower_hex (s : string) : Prop :=
  Forall (fun c => In c (list_ascii_of_string "0123456789abcdef"))
         (list_ascii_of_string s).

(** Two parameter sets hold the same key-value pairs when every key looks
    up to the same value in both, nested mappings being compared in the same
    way; the order of insertion plays no part. *)
Definition same_lookup {V} (R : V -> V -> Prop) (d1 d2 : list (string * V)) : Prop :=
  forall k,
    match dict_get d1 k, dict_get d2 k with
    | Some a, Some b => R a b
    | None, None => True
    | _, _ => False
    end.

Definition same_value (a b : value) : Prop :=
  match a, b with
  | Scalar x, Scalar y => x = y
  | Mapping m1, Mapping m2 => same_lookup eq m1 m2
  | _, _ => False
  end.

Definition same_pairs (p1 p2 : pydict) : Prop := same_lookup same_value p1 p2.

(** ** Notions used to state the properties of the dispatcher *)

(** The parameter set a call is made with: the contents of the dictionary
    passed, or nothing when none is passed. *)
Definition holds (w : world) (params : option loc) (d : pydict) : Prop :=
  match params with
  | Some p => heap w !! p = Some d
  | None => d = []
  end.

(** The request identifier synthesized in world [w]. *)
Definition fresh_request_id (w : world) : value :=
  Scalar (SStr (str_int (clock (out w) (ticks w)))).

(** A parameter set once its [request_id] is ensured in world [w]. *)
Definition stamped (w : world) (d : pydict) : pydict :=
  if dict_contains d "request_id" then d
  else dict_set d "request_id" (fresh_request_id w).

(** The world once the [request_id] of the dictionary at [p], which holds
    [d], is ensured: nothing changes when [d] has one, otherwise the
    dictionary is updated in place and the clock has been read once. *)
Definition stamp_world (p : loc) (d : pydict) (w : world) : world :=
  if dict_contains d "request_id" then w
  else with_heap (<[p := stamped w d]> (heap w)) (with_ticks (S (ticks w)) w).

(** The persistent headers other than the signature header. *)
Definition other_headers (h : headers) : headers :=
  List.filter (fun kv => negb (String.eqb (lower (fst kv)) "x-auth-sign")) h.

(** What [send] hands to the transport for parameters holding [content]. *)
Definition request_of (method url : string) (content : option pydict)
    (h : headers) : request :=
  if String.eqb method "GET"
  then {| req_method := "GET"; req_url := url; req_query := content;
          req_json := None; req_headers := h |}
  else {| req_method := "POST"; req_url := url; req_query := None;
          req_json := content; req_headers := h |}.

Definition contents (w : world) (params : option loc) : option pydict :=
  match params with
  | Some p => heap w !! p
  | None => None
  end.

(** A reference passed as [params] names an object of the heap. *)
Definition valid_params (w : world) (params : option loc) : Prop :=
  match params with
  | Some p => is_Some (heap w !! p)
  | None => True
  end.

(** The parameters a request carries: the query of a GET, the JSON body
    otherwise. *)
Definition payload (r : request) : option pydict :=
  if String.eqb (req_method r) "GET" then req_query r else req_json r.

(** What a dispatch returns for the answer of the transport: an exception
    of the transport as it is, [HTTPError] for a status from 400 to 599,
    otherwise the decoded body, or [JSONDecodeError] when it does not
    decode. *)
Definition answer (a : result response) : result json :=
  match a with
  | Raise e => Raise e
  | Ok r =>
      if (400 <=? status_code r) && (status_code r <? 600)
      then Raise (HTTPError (status_code r))
      else match body r with
           | Some j => Ok j
           | None => Raise JSONDecodeError
           end
  end.

(** The verb a dispatch uses for the [method] it is given. *)
Definition verb (method : string) : string :=
  if String.eqb method "GET" then "GET"%string else "POST"%string.

(** A parameter set with every scalar replaced by its string form. *)
Definition stringify_scalar (s : scalar) : scalar := SStr (py_str s).

Definition stringify (v : value) : value :=
  match v with
  | Scalar s => Scalar (stringify_scalar s)
  | Mapping m => Mapping (map (fun kv => (fst kv, stringify_scalar (snd kv))) m)
  end.

Definition stringify_params (p : pydict) : pydict :=
  map (fun kv => (fst kv, stringify (snd kv))) p.

(** A signed POST as a private endpoint method sends it from world [w]:
    to [path] under the base URL, with [body] as its JSON body and no query,
    and with the digest of [text] followed by the secret as its
    [x-auth-sign] header. *)
Definition signed_post (w : world) (path : string) (body : pydict)
    (text : string) (r : request) : Prop :=
  req_method r = "POST"%string /\
  req_url r = (base_url (config w) ++ path)%string /\
  req_query r = None /\
  req_json r = Some body /\
  header_get (req_headers r) "x-auth-sign"
  = Some (Sha256.hexdigest (text ++ the_str (secret (config w)))%string).

(** An unsigned GET as a public endpoint method sends it from world [w]. *)
Definition plain_get (w : world) (path : string) (query : option pydict)
    (r : request) : Prop :=
  req_method r = "GET"%string /\
  req_url r = (base_url (config w) ++ path)%string /\
  req_query r = query /\
  req_json r = None /\
  req_headers r = session_headers w.

(** The dictionary [create_order] starts from. *)
Definition order_params {pyfloat : Type} (str_float : pyfloat -> string)
    (pair : string) (type_trade : TradeType) (order_type : OrderType)
    (volume : pyfloat) : pydict :=
  [("pair", Scalar (SStr pair));
   ("type_trade", Scalar (SInt (TradeType_value type_trade)));
   ("type", Scalar (SInt (OrderType_value order_type)));
   ("volume", Scalar (SStr (str_float volume)))]%string.

(** ** Concrete inputs used in examples *)

(** An exchange that answers every request with [200] and an empty object,
    and a clock that advances one microsecond per reading. *)
Definition calm : outside :=
  {| user_agent := "python-requests";
     accept_encoding := "gzip, deflate";
     clock := fun n => 1700000000000000 + Z.of_nat n;
     server := fun _ _ => Ok {| status_code := 200; body := Some (JObj []) |} |}.

Definition ab_example : pydict :=
  [("a", Scalar (SStr "1")); ("b", Scalar (SStr "2"))]%string.
Definition ba_example : pydict :=
  [("b", Scalar (SStr "2")); ("a", Scalar (SStr "1"))]%string.

(** An exchange that answers every request with status [500]. *)
Definition failing : outside :=
  {| user_agent := "python-requests";
     accept_encoding := "gzip, deflate";
     clock := fun n => 1700000000000000 + Z.of_nat n;
     server := fun _ _ => Ok {| status_code := 500; body := Some (JObj []) |} |}.

(** A clock that gives the same reading twice in a row. *)
Definition stuck : outside :=
  {| user_agent := "python-requests";
     accept_encoding := "gzip, deflate";
     clock := fun _ => 1700000000000000;
     server := fun _ _ => Ok {| status_code := 200; body := Some (JObj []) |} |}.

(** A client with a login token and a secret, right after construction. *)
Definition demo : world :=
  __init__ calm (make_config (Some "tok") (Some "s"))%string.

(** The same without a secret. *)
Definition demo_no_secret : world :=
  __init__ calm (make_config (Some "tok"%string) None).

Definition nested_example : pydict :=
  [("a", Mapping [("y", SStr "2"); ("x", SStr "1")]); ("b", Scalar (SStr "3"))]%string.

(** * Properties *)

(** ** SHA-256 test vectors *)

Example sha256_abc :
  Sha256.hexdigest "abc" =
  "ba7816bf8f01cfea414140de5dae2223b00361a396177a9cb410ff61f20015ad"%string.
Proof. vm_compute. reflexivity. Qed.

Example sha256_empty :
  Sha256.hexdigest EmptyString =
  "e3b0c44298fc1c149afbf4c8996fb92427ae41e4649b934ca495991b7852b855"%string.
Proof. vm_compute. reflexivity. Qed.

Example sha256_two_blocks :
  Sha256.hexdigest
    "aaaaaaaaaaaaaaaaaaaaaaaaaaaaaaaaaaaaaaaaaaaaaaaaaaaaaaaaaaaa" =
  "11ee391211c6256460b6ed375957fadd8061cafbb31daf967db875aebd5aaad4"%string.
Proof. vm_compute. reflexivity. Qed.


(** ** The ordering of strings *)

Section StringOrder.

Lemma ascii_compare_lt_trans a b c :
  Ascii.compare a b = Lt -> Ascii.compare b c = Lt -> Ascii.compare a c = Lt.
Proof. unfold Ascii.compare. rewrite !N.compare_lt_iff. lia. Qed.

Lemma string_compare_lt_trans a :
  forall b c, String.compare a b = Lt -> String.compare b c = Lt ->
              String.compare a c = Lt.
Proof.
  induction a as [|x a IH]; intros [|y b] [|z c]; simpl; try congruence.
  destruct (Ascii.compare x y) eqn:Exy; try discriminate;
    destruct (Ascii.compare y z) eqn:Eyz; try discriminate; intros Hab Hbc.
  - apply Ascii.compare_eq_iff in Exy, Eyz. subst.
    replace (Ascii.compare z z) with Eq; [eauto|].
    symmetry. unfold Ascii.compare. apply N.compare_refl.
  - apply Ascii.compare_eq_iff in Exy. subst. now rewrite Eyz.
  - apply Ascii.compare_eq_iff in Eyz. subst. now rewrite Exy.
  - now rewrite (ascii_compare_lt_trans _ _ _ Exy Eyz).
Qed.

Lemma string_compare_refl a : String.compare a a = Eq.
Proof.
  induction a as [|x a IH]; simpl; [reflexivity|].
  unfold Ascii.compare. now rewrite N.compare_refl.
Qed.

Lemma ltb_lt a b : String.ltb a b = true <-> String.compare a b = Lt.
Proof. unfold String.ltb. destruct (String.compare a b); split; congruence. Qed.

Lemma ltb_irrefl a : String.ltb a a = false.
Proof. unfold String.ltb. now rewrite string_compare_refl. Qed.

Lemma ltb_trans a b c :
  String.ltb a b = true -> String.ltb b c = true -> String.ltb a c = true.
Proof. rewrite !ltb_lt. apply string_compare_lt_trans. Qed.

Lemma ltb_trichotomy a b :
  a <> b -> String.ltb a b = false -> String.ltb b a = true.
Proof.
  intros Hne. unfold String.ltb. rewrite (String.compare_antisym b a).
  destruct (String.compare a b) eqn:E; simpl; try congruence.
  apply String.compare_eq_iff in E. contradiction.
Qed.

Lemma ltb_leb a b : String.ltb a b = true -> String.leb a b = true.
Proof. unfold String.ltb, String.leb. destruct (String.compare a b); congruence. Qed.

Lemma leb_ltb a b : String.leb a b = true -> a <> b -> String.ltb a b = true.
Proof.
  unfold String.ltb, String.leb. destruct (String.compare a b) eqn:E; try congruence.
  apply String.compare_eq_iff in E. contradiction.
Qed.

Lemma leb_trans a b c :
  String.leb a b = true -> String.leb b c = true -> String.leb a c = true.
Proof.
  intros Hab Hbc.
  destruct (String.eqb_spec a b) as [->|Hne1]; [assumption|].
  destruct (String.eqb_spec b c) as [<-|Hne2]; [assumption|].
  apply ltb_leb, (ltb_trans a b c); now apply leb_ltb.
Qed.

End StringOrder.

#[global] Instance key_le_total {V} : Total (@key_le V).
Proof. intros a b. unfold key_le. apply String.leb_total. Qed.

#[global] Instance key_le_trans {V} : Transitive (@key_le V).
Proof. intros a b c. unfold key_le. apply leb_trans. Qed.

(** ** Dictionaries *)

Section DictFacts.
Context {V : Type}.
Implicit Types (d : list (string * V)) (k : string) (v : V).

Lemma dict_get_None d k : dict_get d k = None <-> k ∉ dict_keys d.
Proof.
  induction d as [|[k' v'] d IH]; simpl.
  - split; [intros _ H; inversion H | reflexivity].
  - rewrite not_elem_of_cons. destruct (String.eqb_spec k' k) as [->|Hne].
    + split; [discriminate | intros [? _]; congruence].
    + rewrite IH. split; [intros ?; split; congruence | tauto].
Qed.

Lemma dict_get_elem_of d k v : dict_get d k = Some v -> (k, v) ∈ d.
Proof.
  induction d as [|[k' v'] d IH]; simpl; [discriminate|].
  destruct (String.eqb_spec k' k) as [->|Hne].
  - intros [= ->]. left.
  - intros H. right. auto.
Qed.

Lemma elem_of_dict_get d k v : dict_wf d -> (k, v) ∈ d -> dict_get d k = Some v.
Proof.
  unfold dict_wf. induction d as [|[k' v'] d IH]; simpl; intros Hnd Hin.
  - inversion Hin.
  - apply NoDup_cons in Hnd as [Hk' Hnd].
    apply elem_of_cons in Hin as [[= -> ->]|Hin].
    + now rewrite String.eqb_refl.
    + destruct (String.eqb_spec k' k) as [->|Hne]; [|auto].
      exfalso. apply Hk'. unfold dict_keys.
      apply (list_elem_of_fmap_2 fst) in Hin. exact Hin.
Qed.

Lemma dict_wf_inj d (x y : string * V) :
  dict_wf d -> x ∈ d -> y ∈ d -> fst x = fst y -> x = y.
Proof.
  intros Hwf Hx Hy Hk. destruct x as [kx vx], y as [ky vy]; simpl in *; subst.
  apply (elem_of_dict_get _ _ _ Hwf) in Hx, Hy. congruence.
Qed.

Lemma dict_set_fresh d k v : k ∉ dict_keys d -> dict_set d k v = d ++ [(k, v)].
Proof.
  induction d as [|[k' v'] d IH]; simpl; [reflexivity|].
  rewrite not_elem_of_cons. intros [Hne Hk].
  destruct (String.eqb_spec k' k); [congruence|]. now rewrite IH.
Qed.

Lemma dict_get_set_eq d k v : dict_get (dict_set d k v) k = Some v.
Proof.
  induction d as [|[k' v'] d IH]; simpl.
  - now rewrite String.eqb_refl.
  - destruct (String.eqb_spec k' k) as [->|Hne]; simpl.
    + now rewrite String.eqb_refl.
    + destruct (String.eqb_spec k' k); [congruence | exact IH].
Qed.

Lemma dict_get_set_ne d k k' v :
  k' <> k -> dict_get (dict_set d k v) k' = dict_get d k'.
Proof.
  intros Hne. induction d as [|[k0 v0] d IH]; simpl.
  - destruct (String.eqb_spec k k'); [congruence | reflexivity].
  - destruct (String.eqb_spec k0 k) as [->|Hk0]; simpl.
    + destruct (String.eqb_spec k k'); [congruence | reflexivity].
    + now rewrite IH.
Qed.

Lemma dict_of_items_app (acc l : list (string * V)) :
  dict_wf (acc ++ l) ->
  fold_left (fun d kv => dict_set d (fst kv) (snd kv)) l acc = acc ++ l.
Proof.
  unfold dict_wf, dict_keys. revert acc.
  induction l as [|[k v] l IH]; intros acc Hnd; simpl.
  - now rewrite app_nil_r.
  - rewrite dict_set_fresh.
    + rewrite IH; rewrite <- app_assoc; [reflexivity | exact Hnd].
    + rewrite fmap_app in Hnd. apply NoDup_app in Hnd as (_ & Hdisj & _).
      intros Hin. apply (Hdisj k Hin). simpl. left.
Qed.

Lemma dict_of_items_wf (l : list (string * V)) : dict_wf l -> dict_of_items l = l.
Proof. intros Hwf. unfold dict_of_items. now rewrite dict_of_items_app. Qed.

Lemma dict_wf_Permutation (l1 l2 : list (string * V)) :
  l1 ≡ₚ l2 -> dict_wf l1 -> dict_wf l2.
Proof. unfold dict_wf, dict_keys. intros Hp. now rewrite Hp. Qed.
End DictFacts.

(** ** [sorted] on the items of a dictionary *)

Section SortedFacts.
Context {V : Type} (veqb : V -> V -> bool) (vlt : V -> V -> result bool).
Implicit Types (l : list (string * V)) (x y : string * V).

Lemma item_lt_keys x y :
  fst x <> fst y -> item_lt veqb vlt x y = Ok (String.ltb (fst x) (fst y)).
Proof.
  intros Hne. unfold item_lt.
  destruct (String.eqb_spec (fst x) (fst y)); [contradiction | reflexivity].
Qed.

Lemma key_lt_le x y : key_lt x y -> key_le x y.
Proof. apply ltb_leb. Qed.

Lemma StronglySorted_lt_le l : StronglySorted key_lt l -> StronglySorted key_le l.
Proof.
  induction 1 as [|x l Hs IH Hx]; constructor; [exact IH|].
  eapply Forall_impl; [exact Hx | intros y; apply key_lt_le].
Qed.

Lemma insert_item_ok x l :
  (forall y, y ∈ l -> fst x <> fst y) ->
  StronglySorted key_lt l ->
  exists r, insert_item veqb vlt x l = Ok r /\ r ≡ₚ x :: l /\ StronglySorted key_lt r.
Proof.
  induction l as [|y l IH]; intros Hfresh Hs; simpl.
  - exists [x]. repeat split; [reflexivity | repeat constructor].
  - rewrite item_lt_keys by (apply Hfresh; left).
    apply StronglySorted_inv in Hs as [Hs Hy].
    destruct (String.ltb (fst x) (fst y)) eqn:Hlt; simpl.
    + exists (x :: y :: l). repeat split; [reflexivity|].
      constructor; [now constructor|].
      constructor; [exact Hlt|].
      eapply Forall_impl; [exact Hy|].
      intros z Hz. unfold key_lt in *. eapply ltb_trans; eassumption.
    + destruct IH as (r & -> & Hp & Hr); [intros z Hz; apply Hfresh; now right | exact Hs |].
      simpl. exists (y :: r). repeat split.
      * rewrite Hp. apply perm_swap.
      * constructor; [exact Hr|]. rewrite Hp. constructor; [|exact Hy].
        unfold key_lt. apply ltb_trichotomy; [apply Hfresh; left | exact Hlt].
Qed.

Lemma sorted_fold_ok l :
  forall acc,
    dict_wf (acc ++ l) -> StronglySorted key_lt acc ->
    exists r,
      fold_left (fun a x => (let* s := a in insert_item veqb vlt x s)%result) l (Ok acc)
      = Ok r /\ r ≡ₚ acc ++ l /\ StronglySorted key_lt r.
Proof.
  induction l as [|x l IH]; intros acc Hwf Hs; simpl.
  - exists acc. rewrite app_nil_r. auto.
  - destruct (insert_item_ok x acc) as (r & -> & Hp & Hr); [|exact Hs|].
    + intros y Hy Heq. unfold dict_wf, dict_keys in Hwf.
      rewrite fmap_app in Hwf. apply NoDup_app in Hwf as (_ & Hdisj & _).
      apply (Hdisj (fst y)); [now apply list_elem_of_fmap_2 | rewrite <- Heq; left].
    + destruct (IH r) as (r' & Hr' & Hp' & Hs'); [|exact Hr|].
      * apply (dict_wf_Permutation ((acc ++ [x]) ++ l)); [|now rewrite <- app_assoc].
        rewrite Hp. apply Permutation_app_tail. symmetry. apply Permutation_cons_append.
      * exists r'. repeat split; [exact Hr' | | exact Hs'].
        rewrite Hp', Hp. rewrite (Permutation_cons_append acc x).
        now rewrite <- app_assoc.
Qed.

(** On a dictionary [sorted] never raises, and returns the entries in
    ascending order of their keys. *)
Lemma sorted_spec l :
  dict_wf l -> sorted veqb vlt (dict_items l) = Ok (spec_sort_by_key l).
Proof.
  intros Hwf. destruct (sorted_fold_ok l []) as (r & Hr & Hp & Hs);
    [exact Hwf | constructor |].
  unfold sorted, dict_items. rewrite Hr. f_equal. simpl in Hp.
  apply (StronglySorted_unique_strong key_le).
  - intros x1 x2 H1 H2 H12 H21. apply (dict_wf_inj l); [exact Hwf | | |].
    + now rewrite <- Hp.
    + now rewrite <- (merge_sort_Permutation key_le l).
    + apply String.leb_antisym; assumption.
  - now apply StronglySorted_lt_le.
  - apply StronglySorted_merge_sort; apply _.
  - rewrite Hp. symmetry. apply merge_sort_Permutation.
Qed.

Lemma spec_sort_by_key_wf l : dict_wf l -> dict_wf (spec_sort_by_key l).
Proof.
  apply dict_wf_Permutation. symmetry. apply merge_sort_Permutation.
Qed.
End SortedFacts.

(** ** The signing engine *)

Lemma collect_values_fold (l : pydict) :
  forall acc,
    Forall (fun kv => value_wf (snd kv)) l ->
    fold_left
      (fun a kv =>
         (let* values := a in
          match snd kv with
          | Mapping m =>
              let* its := sorted scalar_eqb scalar_lt (dict_items m) in
              let nested_sorted := dict_of_items its in
              Ok (values ++ map py_str (dict_values nested_sorted))
          | Scalar s => Ok (values ++ [py_str s])
          end)%result)
      l (Ok acc)
    = Ok (acc ++ flat_map (fun kv => spec_value_strings (snd kv)) l).
Proof.
  induction l as [|[k v] l IH]; intros acc Hwf; simpl.
  - now rewrite app_nil_r.
  - apply Forall_cons in Hwf as [Hv Hl]. simpl in Hv.
    destruct v as [s|m]; simpl.
    + rewrite IH by exact Hl. now rewrite <- app_assoc.
    + rewrite sorted_spec by exact Hv. simpl.
      rewrite dict_of_items_wf by now apply spec_sort_by_key_wf.
      rewrite IH by exact Hl. rewrite <- app_assoc.
      unfold dict_values. now rewrite map_map.
Qed.

Lemma collect_values_spec (l : pydict) :
  Forall (fun kv => value_wf (snd kv)) l ->
  collect_values l = Ok (flat_map (fun kv => spec_value_strings (snd kv)) l).
Proof. intros Hwf. unfold collect_values, dict_items. now rewrite collect_values_fold. Qed.

(** The string the code hashes is the one the specification describes. *)
Lemma signing_input_spec (cfg : DexTradeConfig) (params : pydict) :
  params_wf params ->
  signing_input cfg params = Ok (spec_signing_string params (the_str (secret cfg))).
Proof.
  intros [Hwf Hvals]. unfold signing_input.
  rewrite sorted_spec by exact Hwf. simpl.
  rewrite dict_of_items_wf by now apply spec_sort_by_key_wf.
  rewrite collect_values_spec; [reflexivity|].
  unfold spec_sort_by_key. now rewrite merge_sort_Permutation.
Qed.

Lemma generate_signature_spec (cfg : DexTradeConfig) (params : pydict) :
  truthy (secret cfg) = true -> params_wf params ->
  _generate_signature cfg params = Ok (spec_sign params (the_str (secret cfg))).
Proof.
  intros Hs Hwf. unfold _generate_signature. rewrite Hs. simpl.
  now rewrite signing_input_spec.
Qed.

(** *** The digest is 64 lowercase hexadecimal digits *)

Lemma compress_length (h block : list Z) :
  length h = 8%nat -> length (Sha256.compress h block) = 8%nat.
Proof.
  intros Hh. unfold Sha256.compress. rewrite length_map, length_combine, Hh.
  reflexivity.
Qed.

Lemma digest_length (msg : list Z) : length (Sha256.digest msg) = 32%nat.
Proof.
  unfold Sha256.digest.
  set (bs := Sha256.blocks _ _). clearbody bs.
  assert (Hh : length (fold_left Sha256.compress bs Sha256.H0) = 8%nat).
  { assert (H0 : length Sha256.H0 = 8%nat) by reflexivity.
    revert H0. generalize Sha256.H0. induction bs as [|b bs IH]; intros h Hh; simpl.
    - exact Hh.
    - apply IH. now apply compress_length. }
  revert Hh. generalize (fold_left Sha256.compress bs Sha256.H0).
  intros h Hh. do 9 (destruct h as [|? h]; try discriminate). reflexivity.
Qed.

Lemma string_of_list_ascii_length (l : list ascii) :
  String.length (string_of_list_ascii l) = length l.
Proof. induction l; simpl; congruence. Qed.

Lemma hexdigest_length (s : string) : String.length (Sha256.hexdigest s) = 64%nat.
Proof.
  unfold Sha256.hexdigest, Sha256.hex_of_bytes. rewrite string_of_list_ascii_length.
  pose proof (digest_length (Sha256.bytes_of_string s)) as H.
  revert H. generalize (Sha256.digest (Sha256.bytes_of_string s)). intros bs.
  assert (Hl : forall l : list Z,
             length (flat_map (fun b => [Sha256.hex_digit (b / 16);
                                         Sha256.hex_digit (b mod 16)]) l)
             = (2 * length l)%nat).
  { induction l as [|b l IH]; simpl; [reflexivity | rewrite IH; lia]. }
  rewrite Hl. lia.
Qed.

Lemma hex_digit_lower (n : Z) :
  In (Sha256.hex_digit n) (list_ascii_of_string "0123456789abcdef").
Proof.
  unfold Sha256.hex_digit.
  destruct (nth_in_or_default (Z.to_nat n) (list_ascii_of_string "0123456789abcdef")
              "0"%char) as [H| ->]; [exact H | simpl; auto].
Qed.

Lemma hexdigest_lower_hex (s : string) : lower_hex (Sha256.hexdigest s).
Proof.
  unfold lower_hex, Sha256.hexdigest, Sha256.hex_of_bytes.
  rewrite list_ascii_of_string_of_list_ascii.
  induction (Sha256.digest (Sha256.bytes_of_string s)) as [|b bs IH]; simpl.
  - constructor.
  - constructor; [apply hex_digit_lower|].
    constructor; [apply hex_digit_lower | exact IH].
Qed.

(** C1. For a parameter set (a dictionary whose nested mappings are
    dictionaries) and a non-empty secret, [_generate_signature] returns the
    lowercase hexadecimal SHA-256 digest of the string the specification
    describes: the string forms of the values, top-level entries in
    ascending key order and the values of a nested mapping in the order of
    its sorted keys, concatenated without separators and followed by the
    secret.  For [{"a": {"y": "2", "x": "1"}, "b": "3"}] the hashed string
    is ["1" + "2" + "3" + secret]. *)
Theorem sign_hashes_sorted_values (cfg : DexTradeConfig) (params : pydict) :
  truthy (secret cfg) = true ->
  params_wf params ->
  _generate_signature cfg params
  = Ok (Sha256.hexdigest (spec_signing_string params (the_str (secret cfg))))
  /\ lower_hex (spec_sign params (the_str (secret cfg)))
  /\ String.length (spec_sign params (the_str (secret cfg))) = 64%nat
  /\ _generate_signature cfg nested_example
     = Ok (Sha256.hexdigest ("1" ++ "2" ++ "3" ++ the_str (secret cfg))%string).
Proof.
  intros Hs Hwf. split; [|split; [|split]].
  - now apply generate_signature_spec.
  - apply hexdigest_lower_hex.
  - apply hexdigest_length.
  - rewrite generate_signature_spec; [reflexivity | exact Hs |].
    apply (bool_decide_unpack _). vm_compute. exact I.
Qed.

Lemma sign_hashes_sorted_values_witness :
  _generate_signature (make_config None (Some "k3y"%string)) nested_example
  = Ok "5fd1667c66c9ed4bb50356dcfb18e16a6158691f1d185de7950b2af7fa561442"%string.
Proof.
  pose proof (sign_hashes_sorted_values
                (make_config None (Some "k3y"%string)) nested_example) as H.
  destruct H as (_ & _ & _ & H).
  - reflexivity.
  - apply (bool_decide_unpack _). vm_compute. exact I.
  - rewrite H. vm_compute. reflexivity.
Defined.

(** ** Insertion order does not matter *)

Section Lookup.
Context {V : Type}.
Implicit Types (l s : list (string * V)) (k : string).

Lemma dict_get_Permutation l1 l2 k :
  dict_wf l1 -> l1 ≡ₚ l2 -> dict_get l1 k = dict_get l2 k.
Proof.
  intros Hwf Hp. pose proof (dict_wf_Permutation _ _ Hp Hwf) as Hwf2.
  destruct (dict_get l1 k) as [v|] eqn:E.
  - symmetry. apply elem_of_dict_get; [exact Hwf2|].
    rewrite <- Hp. now apply dict_get_elem_of.
  - symmetry. apply dict_get_None. apply dict_get_None in E.
    unfold dict_keys in *. now rewrite <- Hp.
Qed.

Lemma sorted_head_least k v s k' :
  StronglySorted key_lt ((k, v) :: s) -> is_Some (dict_get s k') ->
  String.ltb k k' = true.
Proof.
  intros Hs [v' Hv']. apply StronglySorted_inv in Hs as [_ Hall].
  apply dict_get_elem_of in Hv'. rewrite Forall_forall in Hall.
  exact (Hall _ Hv').
Qed.

Lemma sorted_head_absent k v s :
  StronglySorted key_lt ((k, v) :: s) -> dict_get s k = None.
Proof.
  intros Hs. destruct (dict_get s k) as [v'|] eqn:E; [|reflexivity].
  assert (String.ltb k k = true) as Hlt by (eapply sorted_head_least; eauto).
  rewrite ltb_irrefl in Hlt. discriminate.
Qed.

(** Two strictly sorted association lists with related lookups are
    related entry by entry. *)
Lemma sorted_lookup_rel (R : V -> V -> Prop) s1 :
  forall s2,
    StronglySorted key_lt s1 -> StronglySorted key_lt s2 ->
    same_lookup R s1 s2 ->
    Forall2 (fun a b => fst a = fst b /\ R (snd a) (snd b)) s1 s2.
Proof.
  induction s1 as [|[k1 v1] t1 IH]; intros [|[k2 v2] t2] Hs1 Hs2 Hsame.
  - constructor.
  - specialize (Hsame k2). simpl in Hsame. now rewrite String.eqb_refl in Hsame.
  - specialize (Hsame k1). simpl in Hsame. now rewrite String.eqb_refl in Hsame.
  - assert (k1 = k2) as <-.
    { destruct (String.eqb_spec k1 k2) as [|Hne]; [assumption|]. exfalso.
      pose proof (Hsame k1) as H1. pose proof (Hsame k2) as H2. simpl in H1, H2.
      rewrite String.eqb_refl in H1, H2.
      destruct (String.eqb_spec k2 k1); [congruence|].
      destruct (String.eqb_spec k1 k2); [congruence|].
      destruct (dict_get t2 k1) as [a|] eqn:E1; [|contradiction].
      destruct (dict_get t1 k2) as [b|] eqn:E2; [|contradiction].
      assert (String.ltb k2 k1 = true) by (eapply sorted_head_least; eauto).
      assert (String.ltb k1 k2 = true) by (eapply sorted_head_least; eauto).
      assert (String.ltb k1 k1 = true) as Habs by (eapply ltb_trans; eauto).
      rewrite ltb_irrefl in Habs. discriminate. }
    constructor.
    + pose proof (Hsame k1) as H1. simpl in H1. rewrite String.eqb_refl in H1.
      simpl. auto.
    + apply IH.
      * now apply StronglySorted_inv in Hs1.
      * now apply StronglySorted_inv in Hs2.
      * intros k. specialize (Hsame k). simpl in Hsame.
        destruct (String.eqb_spec k1 k) as [Heq|Hne]; [subst k|exact Hsame].
        now rewrite (sorted_head_absent _ _ _ Hs1), (sorted_head_absent _ _ _ Hs2).
Qed.

Lemma spec_sort_strict l : dict_wf l -> StronglySorted key_lt (spec_sort_by_key l).
Proof.
  intros Hwf.
  destruct (sorted_fold_ok (fun _ _ => true) (fun _ _ => Ok true) l [])
    as (r & Hr & _ & Hs); [exact Hwf | constructor |].
  pose proof (sorted_spec (fun _ _ => true) (fun _ _ => Ok true) l Hwf) as Hspec.
  unfold sorted, dict_items in Hspec. rewrite Hr in Hspec.
  injection Hspec as <-. exact Hs.
Qed.

Lemma same_lookup_sort (R : V -> V -> Prop) l1 l2 :
  dict_wf l1 -> dict_wf l2 -> same_lookup R l1 l2 ->
  Forall2 (fun a b => fst a = fst b /\ R (snd a) (snd b))
          (spec_sort_by_key l1) (spec_sort_by_key l2).
Proof.
  intros Hwf1 Hwf2 Hsame.
  apply sorted_lookup_rel; [now apply spec_sort_strict.. |].
  intros k. specialize (Hsame k).
  rewrite <- (dict_get_Permutation l1 (spec_sort_by_key l1) k),
          <- (dict_get_Permutation l2 (spec_sort_by_key l2) k);
    [exact Hsame | assumption | | assumption |];
    symmetry; apply merge_sort_Permutation.
Qed.

Lemma same_lookup_eq_sort l1 l2 :
  dict_wf l1 -> dict_wf l2 -> same_lookup eq l1 l2 ->
  spec_sort_by_key l1 = spec_sort_by_key l2.
Proof.
  intros Hwf1 Hwf2 Hsame.
  pose proof (same_lookup_sort eq l1 l2 Hwf1 Hwf2 Hsame) as Hall.
  induction Hall as [|[ka va] [kb vb] ta tb [Hk Hv] _ IH]; [reflexivity|].
  simpl in *. congruence.
Qed.

Lemma same_lookup_refl (R : V -> V -> Prop) l :
  (forall v, R v v) -> same_lookup R l l.
Proof. intros HR k. destruct (dict_get l k); auto. Qed.
End Lookup.

Lemma same_value_refl (v : value) : same_value v v.
Proof. destruct v; simpl; [reflexivity | now apply same_lookup_refl]. Qed.

(** Reordering the entries of a dictionary keeps its key-value pairs. *)
Lemma Permutation_same_pairs (p1 p2 : pydict) :
  dict_wf p1 -> p1 ≡ₚ p2 -> same_pairs p1 p2.
Proof.
  intros Hwf Hp k. rewrite <- (dict_get_Permutation p1 p2 k Hwf Hp).
  destruct (dict_get p1 k); [apply same_value_refl | exact I].
Qed.

Lemma same_value_strings (a b : value) :
  value_wf a -> value_wf b -> same_value a b ->
  spec_value_strings a = spec_value_strings b.
Proof.
  destruct a as [x|m1], b as [y|m2]; simpl; try contradiction.
  - now intros _ _ ->.
  - intros H1 H2 Hs. now rewrite (same_lookup_eq_sort m1 m2 H1 H2 Hs).
Qed.

Lemma same_pairs_value_text (p1 p2 : pydict) :
  params_wf p1 -> params_wf p2 -> same_pairs p1 p2 ->
  spec_value_text p1 = spec_value_text p2.
Proof.
  intros [Hwf1 Hv1] [Hwf2 Hv2] Hsame. unfold spec_value_text. f_equal.
  pose proof (same_lookup_sort same_value p1 p2 Hwf1 Hwf2 Hsame) as Hall.
  assert (Hs1 : Forall (fun kv => value_wf (snd kv)) (spec_sort_by_key p1))
    by (unfold spec_sort_by_key; now rewrite merge_sort_Permutation).
  assert (Hs2 : Forall (fun kv => value_wf (snd kv)) (spec_sort_by_key p2))
    by (unfold spec_sort_by_key; now rewrite merge_sort_Permutation).
  induction Hall as [|a b ta tb [_ Hab] _ IH]; [reflexivity|].
  apply Forall_cons in Hs1 as [Ha Hs1]. apply Forall_cons in Hs2 as [Hb Hs2].
  simpl. rewrite (same_value_strings _ _ Ha Hb Hab). f_equal. now apply IH.
Qed.

(** C2. Two parameter sets that hold the same key-value pairs, whatever
    the order in which the pairs were inserted, get the same signature
    under the same configuration (hence the same secret). *)
Theorem sign_ignores_insertion_order (cfg : DexTradeConfig) (p1 p2 : pydict) :
  params_wf p1 -> params_wf p2 -> same_pairs p1 p2 ->
  _generate_signature cfg p1 = _generate_signature cfg p2.
Proof.
  intros Hwf1 Hwf2 Hsame. unfold _generate_signature.
  destruct (truthy (secret cfg)); simpl; [|reflexivity].
  rewrite !signing_input_spec by assumption.
  unfold spec_signing_string. now rewrite (same_pairs_value_text p1 p2).
Qed.

Lemma sign_ignores_insertion_order_witness :
  _generate_signature (make_config None (Some "s"%string)) ba_example
  = _generate_signature (make_config None (Some "s"%string)) ab_example
  /\ _generate_signature (make_config None (Some "s"%string)) ab_example
     = Ok "d65ca5bf6d610aeaacc8d7d012ae4a68139b94416383070a0615708c069aa5ae"%string.
Proof.
  split.
  - apply sign_ignores_insertion_order.
    + apply (bool_decide_unpack _). vm_compute. exact I.
    + apply (bool_decide_unpack _). vm_compute. exact I.
    + apply Permutation_same_pairs.
      * apply (bool_decide_unpack _). vm_compute. exact I.
      * apply perm_swap.
  - vm_compute. reflexivity.
Defined.

(** ** Running the dispatcher step by step *)

Lemma bind_ok {A B} (m : M A) (k : A -> M B) w a w' :
  m w = (Ok a, w') -> bind m k w = k a w'.
Proof. intros H. unfold bind. now rewrite H. Qed.

Lemma bind_raise {A B} (m : M A) (k : A -> M B) w e w' :
  m w = (Raise e, w') -> bind m k w = (Raise e, w').
Proof. intros H. unfold bind. now rewrite H. Qed.

Lemma deref_run p d w : heap w !! p = Some d -> deref p w = (Ok d, w).
Proof. intros H. unfold deref. now rewrite H. Qed.

Lemma default_params_kept p d w :
  heap w !! p = Some d -> d <> [] -> default_params (Some p) w = (Ok p, w).
Proof.
  intros Hp Hd. unfold default_params, falsy_params.
  rewrite (bind_ok _ _ w (match d with [] => true | _ => false end) w).
  - destruct d; [contradiction | reflexivity].
  - now rewrite (bind_ok _ _ w d w (deref_run p d w Hp)).
Qed.

Lemma default_params_new params w :
  holds w params [] ->
  default_params params w = (Ok (length (heap w)), with_heap (heap w ++ [[]]) w).
Proof.
  intros H. unfold default_params, falsy_params. destruct params as [p|]; simpl in H.
  - rewrite (bind_ok _ _ w true w); [reflexivity|].
    now rewrite (bind_ok _ _ w [] w (deref_run p [] w H)).
  - reflexivity.
Qed.

Lemma ensure_request_id_run p d w :
  heap w !! p = Some d -> ensure_request_id p w = (Ok tt, stamp_world p d w).
Proof.
  intros Hp. unfold ensure_request_id, stamp_world, stamped.
  rewrite (bind_ok _ _ w d w (deref_run p d w Hp)).
  destruct (dict_contains d "request_id"); simpl; [reflexivity|].
  unfold bind, time_us, setitem, with_ticks, fresh_request_id. simpl.
  now rewrite Hp.
Qed.

Lemma stamp_world_heap p d w :
  heap w !! p = Some d -> heap (stamp_world p d w) !! p = Some (stamped w d).
Proof.
  intros Hp. unfold stamp_world, stamped.
  destruct (dict_contains d "request_id"); simpl; [exact Hp|].
  apply list_lookup_insert_eq. now apply lookup_lt_Some in Hp.
Qed.

Lemma stamp_world_frame p d w :
  config (stamp_world p d w) = config w /\
  out (stamp_world p d w) = out w /\
  session_headers (stamp_world p d w) = session_headers w /\
  wire (stamp_world p d w) = wire w /\
  ticks (stamp_world p d w)
  = (if dict_contains d "request_id" then ticks w else S (ticks w)).
Proof. unfold stamp_world. destruct (dict_contains d "request_id"); simpl; auto. Qed.

Lemma sign_request_run p d w :
  heap w !! p = Some d ->
  sign_request p w
  = match _generate_signature (config w) d with
    | Ok sig =>
        (Ok tt, with_headers (headers_update (session_headers w)
                                [("x-auth-sign", sig)]%string) w)
    | Raise e => (Raise e, w)
    end.
Proof.
  intros Hp. unfold sign_request.
  rewrite (bind_ok get_config _ w (config w) w eq_refl).
  rewrite (bind_ok _ _ w d w (deref_run p d w Hp)).
  unfold bind, lift, session_headers_update.
  now destruct (_generate_signature (config w) d).
Qed.

(** The [if private:] block on the dictionary [d] found at [q]. *)
Lemma private_steps_run q d w :
  heap w !! q = Some d ->
  (do _ <- ensure_request_id q; do _ <- sign_request q; ret (Some q))%monad w
  = match _generate_signature (config w) (stamped w d) with
    | Ok sig =>
        (Ok (Some q),
         with_headers (headers_update (session_headers w) [("x-auth-sign", sig)]%string)
                      (stamp_world q d w))
    | Raise e => (Raise e, stamp_world q d w)
    end.
Proof.
  intros Hq.
  rewrite (bind_ok _ _ w tt _ (ensure_request_id_run q d w Hq)).
  pose proof (stamp_world_heap q d w Hq) as Hq'.
  pose proof (stamp_world_frame q d w) as (Hc & _ & Hh & _).
  unfold bind. rewrite (sign_request_run q (stamped w d) _ Hq'), Hc, Hh.
  now destruct (_generate_signature (config w) (stamped w d)).
Qed.

Lemma send_run method url params w :
  valid_params w params ->
  send method url params w
  = (server (out w) (wire w)
       (request_of method url (contents w params) (session_headers w)),
     with_wire (wire w ++ [request_of method url (contents w params) (session_headers w)])
               w).
Proof.
  intros Hv. unfold send, request_of, session_get, session_post, snapshot, contents.
  destruct params as [p|]; simpl in Hv.
  - destruct Hv as [d Hp]. rewrite Hp.
    destruct (String.eqb method "GET");
      now rewrite (bind_ok _ _ w (Some d) w
                     (bind_ok _ _ w d w (deref_run p d w Hp))).
  - destruct (String.eqb method "GET"); reflexivity.
Qed.

Lemma send_invalid method url p w :
  heap w !! p = None -> send method url (Some p) w = (Raise InvalidReference, w).
Proof.
  intros Hp. unfold send, session_get, session_post, snapshot.
  destruct (String.eqb method "GET"); unfold bind, deref; now rewrite Hp.
Qed.

(** After the transport has answered, the world no longer changes. *)
Lemma response_steps_world (r : response) w :
  snd ((do _ <- raise_for_status r; response_json r)%monad w) = w.
Proof.
  unfold bind, raise_for_status, response_json, raise, ret.
  destruct ((400 <=? status_code r) && (status_code r <? 600)); simpl; [reflexivity|].
  now destruct (body r).
Qed.

Lemma payload_request_of method url content h :
  payload (request_of method url content h) = content.
Proof.
  unfold payload, request_of. destruct (String.eqb method "GET") eqn:E; reflexivity.
Qed.

Lemma make_request_public method endpoint params w :
  valid_params w params ->
  snd (_make_request method endpoint params false w)
  = with_wire (wire w ++ [request_of method (base_url (config w) ++ endpoint)
                            (contents w params) (session_headers w)]) w.
Proof.
  intros Hv. unfold _make_request.
  rewrite (bind_ok get_config _ w (config w) w eq_refl).
  rewrite (bind_ok (ret params) _ w params w eq_refl).
  unfold bind at 1. rewrite (send_run _ _ _ _ Hv).
  destruct (server _ _ _) as [resp|e]; [|reflexivity].
  apply response_steps_world.
Qed.

Lemma make_request_public_invalid method endpoint p w :
  heap w !! p = None ->
  _make_request method endpoint (Some p) false w = (Raise InvalidReference, w).
Proof.
  intros Hp. unfold _make_request.
  rewrite (bind_ok get_config _ w (config w) w eq_refl).
  rewrite (bind_ok (ret (Some p)) _ w (Some p) w eq_refl).
  unfold bind. now rewrite (send_invalid _ _ _ _ Hp).
Qed.

(** A private dispatch, from the dictionary [d] at [q] that
    [default_params] settled on in world [w0]. *)
Lemma make_request_private method endpoint params w q d w0 :
  default_params params w = (Ok q, w0) ->
  heap w0 !! q = Some d ->
  config w0 = config w ->
  match _generate_signature (config w) (stamped w0 d) with
  | Raise e =>
      _make_request method endpoint params true w = (Raise e, stamp_world q d w0)
  | Ok sig =>
      let w2 := with_headers (headers_update (session_headers w0)
                                [("x-auth-sign", sig)]%string)
                             (stamp_world q d w0) in
      let r := request_of method (base_url (config w) ++ endpoint)
                          (Some (stamped w0 d)) (session_headers w2) in
      snd (_make_request method endpoint params true w)
      = with_wire (wire w0 ++ [r]) w2
  end.
Proof.
  intros Hdef Hq Hcfg. unfold _make_request.
  rewrite (bind_ok get_config _ w (config w) w eq_refl).
  pose proof (private_steps_run q d w0 Hq) as Hsteps. rewrite Hcfg in Hsteps.
  pose proof (stamp_world_frame q d w0) as (_ & _ & Hh & Hw & _).
  destruct (_generate_signature (config w) (stamped w0 d)) as [sig|e].
  - cbv zeta.
    rewrite (bind_ok _ _ w (Some q) _ (eq_trans (bind_ok _ _ w q w0 Hdef) Hsteps)).
    unfold bind at 1. rewrite send_run.
    + simpl. rewrite (stamp_world_heap q d w0 Hq), Hw.
      destruct (server _ _ _) as [resp|e]; [|reflexivity].
      now rewrite response_steps_world.
    + simpl. rewrite (stamp_world_heap q d w0 Hq). eauto.
  - apply bind_raise. now rewrite (bind_ok _ _ w q w0 Hdef).
Qed.

Lemma new_params_heap (w : world) :
  heap (with_heap (heap w ++ [[]]) w) !! length (heap w) = Some [].
Proof. simpl. apply list_lookup_middle. reflexivity. Qed.

(** Every parameter set a caller can pass is either kept (given and not
    empty) or replaced by a new empty dictionary. *)
Lemma default_params_cases params w d :
  holds w params d ->
  (exists p, params = Some p /\ d <> [] /\ default_params params w = (Ok p, w)) \/
  (d = [] /\
   default_params params w = (Ok (length (heap w)), with_heap (heap w ++ [[]]) w)).
Proof.
  intros H. destruct d as [|x d].
  - right. split; [reflexivity | now apply default_params_new].
  - left. destruct params as [p|]; simpl in H; [|discriminate].
    exists p. repeat split; [discriminate|]. now apply (default_params_kept p (x :: d)).
Qed.

Lemma valid_params_holds w params :
  valid_params w params -> exists d, holds w params d.
Proof.
  destruct params as [p|]; simpl; [intros [d Hd]; now exists d | now exists []].
Qed.

(** ** Missing secret *)

Lemma generate_signature_no_secret cfg d :
  truthy (secret cfg) = false -> _generate_signature cfg d = Raise MissingSecret.
Proof. intros H. unfold _generate_signature. now rewrite H. Qed.

Lemma private_dispatch_no_secret method endpoint params w :
  truthy (secret (config w)) = false ->
  valid_params w params ->
  fst (_make_request method endpoint params true w) = Raise MissingSecret /\
  wire (snd (_make_request method endpoint params true w)) = wire w /\
  session_headers (snd (_make_request method endpoint params true w))
  = session_headers w.
Proof.
  intros Hs Hv. destruct (valid_params_holds _ _ Hv) as [d Hd].
  destruct (default_params_cases _ _ _ Hd) as [(p & -> & Hne & Hdef)|[-> Hdef]].
  - pose proof (make_request_private method endpoint (Some p) w p d w Hdef Hd eq_refl) as H.
    rewrite generate_signature_no_secret in H by exact Hs. rewrite H. cbn [fst snd].
    pose proof (stamp_world_frame p d w) as (_ & _ & Hh & Hw & _). auto.
  - pose proof (make_request_private method endpoint params w _ [] _ Hdef
                  (new_params_heap w) eq_refl) as H.
    rewrite generate_signature_no_secret in H by exact Hs. rewrite H. cbn [fst snd].
    pose proof (stamp_world_frame (length (heap w)) [] (with_heap (heap w ++ [[]]) w))
      as (_ & _ & Hh & Hw & _).
    rewrite Hh, Hw. auto.
Qed.

(** C3. With no secret configured ([None] or the empty string), signing
    raises [MissingSecret] for every parameter set, and so does every
    private dispatch, whose world has the same list of requests given to
    the transport as before the call: nothing was sent.  The private
    endpoint methods that take no validated argument inherit this. *)
Theorem missing_secret_fails_closed (w : world) (method endpoint : string)
    (params : option loc) (d : pydict) :
  truthy (secret (config w)) = false ->
  valid_params w params ->
  _generate_signature (config w) d = Raise MissingSecret /\
  fst (_make_request method endpoint params true w) = Raise MissingSecret /\
  wire (snd (_make_request method endpoint params true w)) = wire w /\
  (fst (get_balances w) = Raise MissingSecret /\ wire (snd (get_balances w)) = wire w) /\
  (fst (get_active_orders w) = Raise MissingSecret /\
   wire (snd (get_active_orders w)) = wire w).
Proof.
  intros Hs Hv.
  destruct (private_dispatch_no_secret method endpoint params w Hs Hv) as (Hr & Hw & _).
  assert (Hnew : forall ep,
             let w1 := with_heap (heap w ++ [[]]) w in
             fst (_make_request "POST" ep (Some (length (heap w))) true w1)
             = Raise MissingSecret /\
             wire (snd (_make_request "POST" ep (Some (length (heap w))) true w1))
             = wire w).
  { intros ep w1.
    destruct (private_dispatch_no_secret "POST" ep (Some (length (heap w))) w1)
      as (Hr1 & Hw1 & _); [exact Hs | | auto].
    exists []. apply (new_params_heap w). }
  repeat split; try assumption.
  - now apply generate_signature_no_secret.
  - apply (Hnew "/private/balances"%string).
  - apply (Hnew "/private/balances"%string).
  - apply (Hnew "/private/orders"%string).
  - apply (Hnew "/private/orders"%string).
Qed.

Lemma missing_secret_fails_closed_witness :
  let w := with_heap [[("order_id", Scalar (SStr "7"))]]%string
                     (__init__ calm (make_config (Some "tok"%string) None)) in
  fst (_make_request "POST" "/private/get-order" (Some 0%nat) true w)
  = Raise MissingSecret /\
  wire (snd (_make_request "POST" "/private/get-order" (Some 0%nat) true w)) = [].
Proof.
  cbv zeta.
  destruct (missing_secret_fails_closed
              (with_heap [[("order_id", Scalar (SStr "7"))]]%string
                         (__init__ calm (make_config (Some "tok"%string) None)))
              "POST" "/private/get-order" (Some 0%nat) [])
    as (_ & Hr & Hw & _).
  - reflexivity.
  - exists [("order_id", Scalar (SStr "7"))]%string. reflexivity.
  - split; [exact Hr | exact Hw].
Defined.

(** ** What a dispatch does to the dictionaries *)

Lemma stamped_fresh w d :
  dict_contains d "request_id" = false ->
  stamped w d = d ++ [("request_id"%string, fresh_request_id w)].
Proof.
  intros Hc. unfold stamped. rewrite Hc. apply dict_set_fresh.
  apply dict_get_None. unfold dict_contains in Hc.
  now destruct (dict_get d "request_id").
Qed.

Lemma stamped_present w d : dict_contains d "request_id" = true -> stamped w d = d.
Proof. intros Hc. unfold stamped. now rewrite Hc. Qed.

Lemma stamped_other w d k :
  k <> "request_id"%string -> dict_get (stamped w d) k = dict_get d k.
Proof.
  intros Hk. unfold stamped. destruct (dict_contains d "request_id"); [reflexivity|].
  now apply dict_get_set_ne.
Qed.

Lemma make_request_private_invalid method endpoint p w :
  heap w !! p = None ->
  _make_request method endpoint (Some p) true w = (Raise InvalidReference, w).
Proof.
  intros Hp. unfold _make_request.
  rewrite (bind_ok get_config _ w (config w) w eq_refl).
  apply bind_raise. apply bind_raise. unfold default_params, falsy_params.
  apply bind_raise. apply bind_raise. unfold deref. now rewrite Hp.
Qed.

(** Apart from the requests sent and the session headers, a private
    dispatch leaves the world as [stamp_world] describes it. *)
Lemma make_request_private_frame method endpoint params w q d w0 :
  default_params params w = (Ok q, w0) ->
  heap w0 !! q = Some d ->
  config w0 = config w ->
  heap (snd (_make_request method endpoint params true w)) = heap (stamp_world q d w0) /\
  ticks (snd (_make_request method endpoint params true w)) = ticks (stamp_world q d w0).
Proof.
  intros Hdef Hq Hcfg.
  pose proof (make_request_private method endpoint params w q d w0 Hdef Hq Hcfg) as H.
  destruct (_generate_signature (config w) (stamped w0 d)) as [sig|e].
  - cbv zeta in H. rewrite H. split; reflexivity.
  - rewrite H. split; reflexivity.
Qed.

(** C10. A private dispatch without a secret, on a non-empty parameter set
    that has no [request_id], raises [MissingSecret] only after it has
    added a [request_id] entry to the caller's dictionary, which is
    therefore not left as it was.  When the parameter set is empty or absent
    the entry goes to a new dictionary and every object the caller holds is
    untouched. *)
Theorem missing_secret_after_request_id (w : world) (method endpoint : string)
    (p : loc) (d : pydict) (params : option loc) :
  truthy (secret (config w)) = false ->
  heap w !! p = Some d ->
  d <> [] ->
  dict_contains d "request_id" = false ->
  holds w params [] ->
  (fst (_make_request method endpoint (Some p) true w) = Raise MissingSecret /\
   heap (snd (_make_request method endpoint (Some p) true w)) !! p
   = Some (d ++ [("request_id"%string, fresh_request_id w)])) /\
  (fst (_make_request method endpoint params true w) = Raise MissingSecret /\
   heap (snd (_make_request method endpoint params true w))
   = heap w ++ [[("request_id"%string, fresh_request_id w)]]).
Proof.
  intros Hs Hp Hne Hc Hempty. split; split.
  - apply private_dispatch_no_secret; [exact Hs | simpl; eauto].
  - destruct (make_request_private_frame method endpoint (Some p) w p d w) as [Hh _];
      [now apply (default_params_kept p d) | exact Hp | reflexivity |].
    rewrite Hh, (stamp_world_heap p d w Hp). now rewrite stamped_fresh.
  - apply private_dispatch_no_secret; [exact Hs|].
    destruct params; simpl in *; eauto.
  - destruct (make_request_private_frame method endpoint params w
                (length (heap w)) [] (with_heap (heap w ++ [[]]) w)) as [Hh _];
      [now apply default_params_new | apply new_params_heap | reflexivity |].
    rewrite Hh. unfold stamp_world. simpl.
    rewrite insert_app_r_alt by lia. rewrite Nat.sub_diag. reflexivity.
Qed.

Lemma missing_secret_after_request_id_witness :
  let w := with_heap [[("order_id", Scalar (SStr "7"))]; []]%string
                     (__init__ calm (make_config (Some "tok"%string) None)) in
  heap (snd (_make_request "POST" "/private/get-order" (Some 0%nat) true w)) !! 0%nat
  = Some [("order_id", Scalar (SStr "7"));
          ("request_id", Scalar (SStr "1700000000000000"))]%string /\
  heap (snd (_make_request "POST" "/private/balances" (Some 1%nat) true w))
  = [[("order_id", Scalar (SStr "7"))]; [];
     [("request_id", Scalar (SStr "1700000000000000"))]]%string.
Proof.
  cbv zeta.
  destruct (missing_secret_after_request_id
              (with_heap [[("order_id", Scalar (SStr "7"))]; []]%string
                         (__init__ calm (make_config (Some "tok"%string) None)))
              "POST" "/private/get-order" 0%nat
              [("order_id", Scalar (SStr "7"))]%string (Some 1%nat))
    as [[_ H1] _]; [reflexivity | reflexivity | discriminate | reflexivity | reflexivity |].
  destruct (missing_secret_after_request_id
              (with_heap [[("order_id", Scalar (SStr "7"))]; []]%string
                         (__init__ calm (make_config (Some "tok"%string) None)))
              "POST" "/private/balances" 0%nat
              [("order_id", Scalar (SStr "7"))]%string (Some 1%nat))
    as [_ [_ H2]]; [reflexivity | reflexivity | discriminate | reflexivity | reflexivity |].
  split; [exact H1 | exact H2].
Defined.

(** C9. A dispatch changes no dictionary except, on a private call, the
    one it is given, to which it may append a [request_id] entry: after the
    call every dictionary of the heap is still there, every key other than
    [request_id] maps to the value it had on entry, and the dictionary is
    either exactly as before or (private call, non-empty parameter set
    without [request_id]) the old one followed by the new [request_id]. *)
Theorem dispatch_only_adds_request_id (w : world) (method endpoint : string)
    (params : option loc) (private : bool) (q : loc) (dq : pydict) :
  heap w !! q = Some dq ->
  exists d',
    heap (snd (_make_request method endpoint params private w)) !! q = Some d' /\
    (forall k, k <> "request_id"%string -> dict_get d' k = dict_get dq k) /\
    (d' = dq \/
     (private = true /\ params = Some q /\ dict_contains dq "request_id" = false /\
      d' = dq ++ [("request_id"%string, fresh_request_id w)])).
Proof.
  intros Hq.
  assert (Hsame : forall w', heap w' = heap w ->
            exists d', heap w' !! q = Some d' /\
              (forall k, k <> "request_id"%string -> dict_get d' k = dict_get dq k) /\
              (d' = dq \/
               (private = true /\ params = Some q /\
                dict_contains dq "request_id" = false /\
                d' = dq ++ [("request_id"%string, fresh_request_id w)]))).
  { intros w' Hw'. exists dq. rewrite Hw'. auto. }
  destruct private.
  - (* private *)
    destruct params as [p|].
    + destruct (heap w !! p) as [d|] eqn:Hp.
      * destruct (default_params_cases (Some p) w d Hp)
          as [(p' & [= <-] & Hne & Hdef)|[-> Hdef]].
        -- destruct (make_request_private_frame method endpoint (Some p) w p d w)
             as [Hh _]; [exact Hdef | exact Hp | reflexivity |].
           destruct (dict_contains d "request_id") eqn:Hc.
           ++ apply Hsame. rewrite Hh. unfold stamp_world. now rewrite Hc.
           ++ destruct (decide (q = p)) as [->|Hqp].
              ** assert (dq = d) as -> by congruence.
                 exists (stamped w d). rewrite Hh, (stamp_world_heap p d w Hp).
                 split; [reflexivity|]. split; [intros k Hk; now apply stamped_other|].
                 right. repeat split; try assumption. now apply stamped_fresh.
              ** exists dq. rewrite Hh. unfold stamp_world. rewrite Hc. simpl.
                 rewrite list_lookup_insert_ne by congruence. auto.
        -- destruct (make_request_private_frame method endpoint (Some p) w
                       (length (heap w)) [] (with_heap (heap w ++ [[]]) w))
             as [Hh _]; [exact Hdef | apply new_params_heap | reflexivity |].
           exists dq. rewrite Hh. unfold stamp_world. simpl.
           pose proof (lookup_lt_Some _ _ _ Hq) as Hlt.
           rewrite list_lookup_insert_ne by lia.
           rewrite lookup_app_l by exact Hlt. auto.
      * apply Hsame. now rewrite (make_request_private_invalid _ _ _ _ Hp).
    + destruct (make_request_private_frame method endpoint None w
                  (length (heap w)) [] (with_heap (heap w ++ [[]]) w))
        as [Hh _]; [now apply default_params_new | apply new_params_heap | reflexivity |].
      exists dq. rewrite Hh. unfold stamp_world. simpl.
      pose proof (lookup_lt_Some _ _ _ Hq) as Hlt.
      rewrite list_lookup_insert_ne by lia.
      rewrite lookup_app_l by exact Hlt. auto.
  - (* public *)
    apply Hsame. destruct params as [p|].
    + destruct (heap w !! p) as [d|] eqn:Hp.
      * rewrite make_request_public; [reflexivity | simpl; rewrite Hp; eauto].
      * now rewrite (make_request_public_invalid _ _ _ _ Hp).
    + rewrite make_request_public; [reflexivity | exact I].
Qed.

Lemma dispatch_only_adds_request_id_witness :
  let w := with_heap [[("order_id", Scalar (SStr "7"))]]%string
                     (__init__ calm (make_config (Some "tok") (Some "s")))%string in
  exists d',
    heap (snd (_make_request "POST" "/private/get-order" (Some 0%nat) true w)) !! 0%nat
    = Some d' /\
    (forall k, k <> "request_id"%string ->
               dict_get d' k = dict_get [("order_id", Scalar (SStr "7"))]%string k) /\
    (d' = [("order_id", Scalar (SStr "7"))]%string \/
     (true = true /\ Some 0%nat = Some 0%nat /\
      dict_contains [("order_id", Scalar (SStr "7"))]%string "request_id" = false /\
      d' = [("order_id", Scalar (SStr "7"))]%string
           ++ [("request_id"%string, fresh_request_id w)])).
Proof.
  cbv zeta.
  apply (dispatch_only_adds_request_id
           (with_heap [[("order_id", Scalar (SStr "7"))]]%string
                      (__init__ calm (make_config (Some "tok") (Some "s")))%string)
           "POST" "/private/get-order" (Some 0%nat) true 0%nat
           [("order_id", Scalar (SStr "7"))]%string).
  reflexivity.
Defined.

(** ** The request identifier and the signature of a private dispatch *)

Lemma header_get_set_eq (h : headers) (k v : string) :
  header_get (header_set h k v) k = Some v.
Proof.
  induction h as [|[k' v'] h IH]; simpl.
  - now rewrite String.eqb_refl.
  - destruct (String.eqb (lower k') (lower k)) eqn:E; simpl.
    + now rewrite String.eqb_refl.
    + now rewrite E.
Qed.

Lemma header_get_set_ne (h : headers) (k k' v : string) :
  lower k <> lower k' -> header_get (header_set h k v) k' = header_get h k'.
Proof.
  intros Hne. induction h as [|[k0 v0] h IH]; simpl.
  - destruct (String.eqb_spec (lower k) (lower k')); [contradiction | reflexivity].
  - destruct (String.eqb_spec (lower k0) (lower k)) as [Heq|Hk0]; simpl.
    + destruct (String.eqb_spec (lower k) (lower k')); [contradiction|].
      destruct (String.eqb_spec (lower k0) (lower k')); [congruence | reflexivity].
    + now rewrite IH.
Qed.

Lemma stamped_wf w d : params_wf d -> params_wf (stamped w d).
Proof.
  intros [Hwf Hv]. destruct (dict_contains d "request_id") eqn:Hc.
  - now rewrite stamped_present.
  - rewrite stamped_fresh by exact Hc. split.
    + unfold dict_wf, dict_keys in *. rewrite fmap_app. simpl.
      apply NoDup_app. repeat split; [exact Hwf | | apply NoDup_singleton].
      intros k Hk Hk'. apply list_elem_of_singleton in Hk'. subst k.
      unfold dict_contains in Hc.
      destruct (dict_get d "request_id") eqn:E; [discriminate|].
      apply dict_get_None in E. contradiction.
    + apply Forall_app. split; [exact Hv|]. repeat constructor.
Qed.

(** A private dispatch with a secret sends exactly one request: the
    parameter set with its [request_id] ensured, under the session headers
    updated with the signature of that same parameter set. *)
Lemma private_dispatch_sends (w : world) (method endpoint : string)
    (params : option loc) (d : pydict) :
  truthy (secret (config w)) = true ->
  holds w params d ->
  params_wf d ->
  let sig := spec_sign (stamped w d) (the_str (secret (config w))) in
  let h := headers_update (session_headers w) [("x-auth-sign", sig)]%string in
  _generate_signature (config w) (stamped w d) = Ok sig /\
  wire (snd (_make_request method endpoint params true w))
  = wire w ++ [request_of method (base_url (config w) ++ endpoint)
                          (Some (stamped w d)) h] /\
  session_headers (snd (_make_request method endpoint params true w)) = h /\
  ticks (snd (_make_request method endpoint params true w))
  = (if dict_contains d "request_id" then ticks w else S (ticks w)).
Proof.
  intros Hs Hd Hwf sig h.
  pose proof (generate_signature_spec (config w) (stamped w d) Hs (stamped_wf w d Hwf))
    as Hsig.
  assert (Hrun : exists q w0,
             default_params params w = (Ok q, w0) /\ heap w0 !! q = Some d /\
             config w0 = config w /\ out w0 = out w /\ ticks w0 = ticks w /\
             wire w0 = wire w /\ session_headers w0 = session_headers w).
  { destruct (default_params_cases _ _ _ Hd) as [(p & -> & Hne & Hdef)|[-> Hdef]].
    - exists p, w. simpl in Hd. auto 10.
    - exists (length (heap w)), (with_heap (heap w ++ [[]]) w).
      split; [exact Hdef|]. split; [apply new_params_heap|]. simpl. auto 10. }
  destruct Hrun as (q & w0 & Hdef & Hq & Hcfg & Hout & Hticks & Hwire & Hhdr).
  assert (Hst : stamped w0 d = stamped w d).
  { unfold stamped, fresh_request_id. now rewrite Hout, Hticks. }
  pose proof (make_request_private method endpoint params w q d w0 Hdef Hq Hcfg) as Hw.
  pose proof (make_request_private_frame method endpoint params w q d w0 Hdef Hq Hcfg)
    as [_ Ht].
  pose proof (stamp_world_frame q d w0) as (_ & _ & _ & _ & Hst_ticks).
  rewrite Hst, Hsig in Hw. cbv zeta in Hw. rewrite Hhdr in Hw.
  split; [exact Hsig|].
  split; [rewrite Hw; simpl; now rewrite Hwire|].
  split; [rewrite Hw; reflexivity|].
  now rewrite Ht, Hst_ticks, Hticks.
Qed.

(** C5. A private dispatch with a secret, on a parameter set without
    [request_id], reads the clock exactly once, stores the reading as a
    decimal string under [request_id], and then both signs and sends that
    same parameter set: the one request handed to the transport carries it
    as its parameters, and its [x-auth-sign] header is the signature of
    it.  A [request_id] supplied by the caller is kept and the clock is not
    read. *)
Theorem request_id_fixed_before_signing (w : world) (method endpoint : string)
    (params : option loc) (d : pydict) :
  truthy (secret (config w)) = true ->
  holds w params d ->
  params_wf d ->
  exists sig r,
    _generate_signature (config w) (stamped w d) = Ok sig /\
    wire (snd (_make_request method endpoint params true w)) = wire w ++ [r] /\
    payload r = Some (stamped w d) /\
    header_get (req_headers r) "x-auth-sign" = Some sig /\
    (dict_contains d "request_id" = false ->
     stamped w d
     = d ++ [("request_id"%string, Scalar (SStr (str_int (clock (out w) (ticks w)))))] /\
     ticks (snd (_make_request method endpoint params true w)) = S (ticks w)) /\
    (dict_contains d "request_id" = true ->
     stamped w d = d /\
     ticks (snd (_make_request method endpoint params true w)) = ticks w).
Proof.
  intros Hs Hd Hwf.
  destruct (private_dispatch_sends w method endpoint params d Hs Hd Hwf)
    as (Hsig & Hw & _ & Ht).
  eexists. eexists. split; [exact Hsig|]. split; [exact Hw|].
  split; [apply payload_request_of|].
  split.
  { unfold request_of. destruct (String.eqb method "GET"); simpl;
      apply header_get_set_eq. }
  split; intros Hc; rewrite Hc in Ht.
  - split; [now apply stamped_fresh | exact Ht].
  - split; [now apply stamped_present | exact Ht].
Qed.

Lemma request_id_fixed_before_signing_witness :
  let w := __init__ calm (make_config (Some "tok") (Some "s"))%string in
  exists sig r,
    _generate_signature (config w) (stamped w []) = Ok sig /\
    wire (snd (_make_request "POST" "/private/balances" None true w)) = wire w ++ [r] /\
    payload r = Some (stamped w []) /\
    header_get (req_headers r) "x-auth-sign" = Some sig /\
    (dict_contains (V := value) [] "request_id" = false ->
     stamped w []
     = [] ++ [("request_id"%string, Scalar (SStr (str_int (clock (out w) (ticks w)))))] /\
     ticks (snd (_make_request "POST" "/private/balances" None true w)) = S (ticks w)) /\
    (dict_contains (V := value) [] "request_id" = true ->
     stamped w [] = [] /\
     ticks (snd (_make_request "POST" "/private/balances" None true w)) = ticks w).
Proof.
  cbv zeta.
  apply (request_id_fixed_before_signing
           (__init__ calm (make_config (Some "tok") (Some "s"))%string)
           "POST" "/private/balances" None []).
  - reflexivity.
  - reflexivity.
  - apply (bool_decide_unpack _). vm_compute. exact I.
Defined.

(** ** The session headers *)

Lemma other_headers_set_key (h : headers) (k v : string) :
  lower k = "x-auth-sign"%string ->
  other_headers (header_set h k v) = other_headers h.
Proof.
  intros Hk. unfold other_headers. induction h as [|[k' v'] h IH]; simpl.
  - now rewrite Hk.
  - destruct (String.eqb_spec (lower k') (lower k)) as [Heq|Hne]; simpl.
    + now rewrite Heq, Hk.
    + now rewrite IH.
Qed.

Lemma other_headers_set (h : headers) (v : string) :
  other_headers (header_set h "x-auth-sign" v) = other_headers h.
Proof. now apply other_headers_set_key. Qed.

Lemma dispatch_headers_public method endpoint params w :
  session_headers (snd (_make_request method endpoint params false w))
  = session_headers w.
Proof.
  destruct params as [p|].
  - destruct (heap w !! p) as [d|] eqn:Hp.
    + rewrite make_request_public; [reflexivity | simpl; rewrite Hp; eauto].
    + now rewrite (make_request_public_invalid _ _ _ _ Hp).
  - rewrite make_request_public; [reflexivity | exact I].
Qed.

Lemma dispatch_headers_private_from method endpoint params w q d w0 :
  default_params params w = (Ok q, w0) ->
  heap w0 !! q = Some d ->
  config w0 = config w ->
  session_headers w0 = session_headers w ->
  other_headers (session_headers (snd (_make_request method endpoint params true w)))
  = other_headers (session_headers w).
Proof.
  intros Hdef Hq Hcfg Hh.
  pose proof (make_request_private method endpoint params w q d w0 Hdef Hq Hcfg) as H.
  pose proof (stamp_world_frame q d w0) as (_ & _ & Hsh & _).
  destruct (_generate_signature (config w) (stamped w0 d)) as [sig|e].
  - cbv zeta in H. rewrite H. simpl. rewrite Hh. apply other_headers_set.
  - rewrite H. cbn [snd]. now rewrite Hsh, Hh.
Qed.

Lemma dispatch_headers_private method endpoint params w :
  other_headers (session_headers (snd (_make_request method endpoint params true w)))
  = other_headers (session_headers w).
Proof.
  assert (Hnew : holds w params [] ->
            other_headers
              (session_headers (snd (_make_request method endpoint params true w)))
            = other_headers (session_headers w)).
  { intros H. apply (dispatch_headers_private_from method endpoint params w
                       (length (heap w)) [] (with_heap (heap w ++ [[]]) w));
      [now apply default_params_new | apply new_params_heap | reflexivity..]. }
  destruct params as [p|]; [|now apply Hnew].
  destruct (heap w !! p) as [d|] eqn:Hp.
  - destruct d as [|x d]; [now apply Hnew|].
    apply (dispatch_headers_private_from method endpoint (Some p) w p (x :: d) w);
      [now apply (default_params_kept p (x :: d)) | exact Hp | reflexivity..].
  - now rewrite (make_request_private_invalid _ _ _ _ Hp).
Qed.

Lemma get_ticker_sends (pair : string) (w : world) :
  wire (snd (get_ticker pair w))
  = wire w ++ [ {| req_method := "GET";
                   req_url := base_url (config w) ++ "/public/ticker";
                   req_query := Some [("pair"%string, Scalar (SStr pair))];
                   req_json := None;
                   req_headers := session_headers w |} ] /\
  session_headers (snd (get_ticker pair w)) = session_headers w.
Proof.
  unfold get_ticker.
  rewrite (bind_ok (alloc _) _ w (length (heap w))
             (with_heap (heap w ++ [[("pair"%string, Scalar (SStr pair))]]) w) eq_refl).
  rewrite make_request_public.
  - simpl. rewrite list_lookup_middle by reflexivity. split; reflexivity.
  - simpl. rewrite list_lookup_middle by reflexivity. eauto.
Qed.

Lemma init_no_signature_header (o : outside) (cfg : DexTradeConfig) :
  header_get (session_headers (__init__ o cfg)) "x-auth-sign" = None.
Proof. simpl. destruct (truthy (login_token cfg)); reflexivity. Qed.

(** C4, as the code has it.  The signature of a private dispatch is written
    into the session headers of the client and stays there: a later
    [get_ticker] sends [GET /public/ticker] with the session headers as
    they stand, hence with the signature of the last private call.  Only
    on a client that has made no signed call does [get_ticker] send no
    [x-auth-sign] header. *)
Theorem x_auth_sign_is_session_state (w : world) (method endpoint : string)
    (params : option loc) (d : pydict) (pair : string)
    (o : outside) (cfg : DexTradeConfig) :
  truthy (secret (config w)) = true ->
  holds w params d ->
  params_wf d ->
  let w1 := snd (_make_request method endpoint params true w) in
  (exists sig r,
      _generate_signature (config w) (stamped w d) = Ok sig /\
      header_get (session_headers w1) "x-auth-sign" = Some sig /\
      wire (snd (get_ticker pair w1)) = wire w1 ++ [r] /\
      req_method r = "GET"%string /\
      req_url r = (base_url (config w1) ++ "/public/ticker")%string /\
      req_query r = Some [("pair"%string, Scalar (SStr pair))] /\
      header_get (req_headers r) "x-auth-sign" = Some sig) /\
  (exists r,
      wire (snd (get_ticker pair (__init__ o cfg))) = [r] /\
      req_method r = "GET"%string /\
      req_url r = (base_url cfg ++ "/public/ticker")%string /\
      req_query r = Some [("pair"%string, Scalar (SStr pair))] /\
      header_get (req_headers r) "x-auth-sign" = None).
Proof.
  intros Hs Hd Hwf w1. split.
  - destruct (private_dispatch_sends w method endpoint params d Hs Hd Hwf)
      as (Hsig & _ & Hh & _).
    destruct (get_ticker_sends pair w1) as [Hw _].
    eexists. eexists. split; [exact Hsig|].
    assert (Hget : header_get (session_headers w1) "x-auth-sign"
                   = Some (spec_sign (stamped w d) (the_str (secret (config w))))).
    { unfold w1. rewrite Hh. apply header_get_set_eq. }
    split; [exact Hget|]. split; [exact Hw|]. simpl. auto.
  - destruct (get_ticker_sends pair (__init__ o cfg)) as [Hw _].
    eexists. split; [exact Hw|]. simpl.
    repeat split. destruct (truthy (login_token cfg)); reflexivity.
Qed.

Lemma x_auth_sign_is_session_state_witness :
  let w := __init__ calm (make_config (Some "tok") (Some "s"))%string in
  let w1 := snd (_make_request "POST" "/private/balances" None true w) in
  (exists sig r,
      _generate_signature (config w) (stamped w []) = Ok sig /\
      header_get (session_headers w1) "x-auth-sign" = Some sig /\
      wire (snd (get_ticker "BTCUSDT" w1)) = wire w1 ++ [r] /\
      req_method r = "GET"%string /\
      req_url r = (base_url (config w1) ++ "/public/ticker")%string /\
      req_query r = Some [("pair"%string, Scalar (SStr "BTCUSDT"))] /\
      header_get (req_headers r) "x-auth-sign" = Some sig) /\
  (exists r,
      wire (snd (get_ticker "BTCUSDT"
                   (__init__ calm (make_config (Some "tok") (Some "s"))%string))) = [r] /\
      req_method r = "GET"%string /\
      req_url r = (base_url (make_config (Some "tok") (Some "s"))%string
                   ++ "/public/ticker")%string /\
      req_query r = Some [("pair"%string, Scalar (SStr "BTCUSDT"))] /\
      header_get (req_headers r) "x-auth-sign" = None).
Proof.
  cbv zeta.
  apply (x_auth_sign_is_session_state
           (__init__ calm (make_config (Some "tok") (Some "s"))%string)
           "POST" "/private/balances" None [] "BTCUSDT"
           calm (make_config (Some "tok") (Some "s"))%string).
  - reflexivity.
  - reflexivity.
  - apply (bool_decide_unpack _). vm_compute. exact I.
Defined.

(** C4, as stated, fails: on a client with a secret, [get_balances]
    followed by [get_ticker("BTCUSDT")] sends the ticker request with the
    [x-auth-sign] header of the balances request, which is still in the
    session headers. *)
Lemma public_call_carries_signature :
  let w0 := __init__ calm (make_config (Some "tok") (Some "s"))%string in
  let w1 := snd (get_balances w0) in
  let w2 := snd (get_ticker "BTCUSDT" w1) in
  header_get (session_headers w1) "x-auth-sign"
  = Some "4c2b1c47ed4371d913781179a128a7c975f141785bb09f8fdb72e7fc4281b26f"%string /\
  exists r,
    wire w2 !! 1%nat = Some r /\
    length (wire w2) = 2%nat /\
    req_method r = "GET"%string /\
    req_url r = "https://api.dex-trade.com/v1/public/ticker"%string /\
    header_get (req_headers r) "x-auth-sign"
    = Some "4c2b1c47ed4371d913781179a128a7c975f141785bb09f8fdb72e7fc4281b26f"%string.
Proof.
  cbv zeta. split; [vm_compute; reflexivity|].
  eexists. split; [vm_compute; reflexivity|]. vm_compute. auto.
Qed.

(** C8, as the code has it.  The constructor sets [login-token] and
    [content-type: application/json] together, and only when a login token
    is configured; otherwise the session keeps the defaults of the HTTP
    library and has neither header.  After construction a public dispatch
    leaves the session headers as they are, and a private one changes
    nothing but [x-auth-sign]. *)
Theorem persistent_headers_follow_login_token (o : outside) (cfg : DexTradeConfig)
    (w : world) (method endpoint pair : string) (params : option loc)
    (private : bool) :
  let h := session_headers (__init__ o cfg) in
  (if truthy (login_token cfg)
   then h = default_headers o ++ [("login-token", the_str (login_token cfg));
                                  ("content-type", "application/json")]%string /\
        header_get h "login-token" = Some (the_str (login_token cfg)) /\
        header_get h "content-type" = Some "application/json"%string
   else h = default_headers o /\
        header_get h "login-token" = None /\
        header_get h "content-type" = None) /\
  session_headers (snd (_make_request method endpoint params false w))
  = session_headers w /\
  session_headers (snd (get_ticker pair w)) = session_headers w /\
  other_headers (session_headers (snd (_make_request method endpoint params private w)))
  = other_headers (session_headers w).
Proof.
  cbv zeta. split; [|split; [|split]].
  - simpl. destruct (truthy (login_token cfg)); repeat split; reflexivity.
  - apply dispatch_headers_public.
  - apply get_ticker_sends.
  - destruct private; [apply dispatch_headers_private|].
    now rewrite dispatch_headers_public.
Qed.

(** C8, as stated, fails: a client built without a login token has no
    [content-type] header in its session. *)
Lemma no_login_token_no_content_type :
  login_token (make_config None (Some "s"%string)) = None /\
  header_get (session_headers (__init__ calm (make_config None (Some "s"%string))))
             "content-type" = None /\
  session_headers (__init__ calm (make_config None (Some "s"%string)))
  = default_headers calm.
Proof. repeat split; reflexivity. Qed.

(** ** Orders *)

Section OrderFacts.
Variable pyfloat : Type.
Variable str_float : pyfloat -> string.

Lemma setitem_last (w : world) (d : pydict) (k : string) (v : value) :
  setitem (length (heap w)) k v (with_heap (heap w ++ [d]) w)
  = (Ok tt, with_heap (heap w ++ [dict_set d k v]) w).
Proof.
  unfold setitem. simpl. rewrite list_lookup_middle by reflexivity.
  rewrite insert_app_r_alt by lia. rewrite Nat.sub_diag. reflexivity.
Qed.

Lemma create_order_limit_no_rate pair order_type volume stop_rate w :
  create_order pyfloat str_float pair LIMIT order_type volume None stop_rate w
  = (Raise InvalidArgument_rate,
     with_heap (heap w ++ [order_params str_float pair LIMIT order_type volume]) w).
Proof. reflexivity. Qed.

Lemma create_order_stop_limit_no_rate pair order_type volume stop_rate w :
  create_order pyfloat str_float pair STOP_LIMIT order_type volume None stop_rate w
  = (Raise InvalidArgument_rate,
     with_heap (heap w ++ [order_params str_float pair STOP_LIMIT order_type volume]) w).
Proof. reflexivity. Qed.

Lemma create_order_stop_limit_no_stop_rate pair order_type volume r w :
  create_order pyfloat str_float pair STOP_LIMIT order_type volume (Some r) None w
  = (Raise InvalidArgument_stop_rate,
     with_heap (heap w ++ [order_params str_float pair STOP_LIMIT order_type volume
                           ++ [("rate"%string, Scalar (SStr (str_float r)))]]) w).
Proof.
  unfold create_order.
  rewrite (bind_ok (alloc _) _ w (length (heap w))
             (with_heap (heap w ++ [order_params str_float pair STOP_LIMIT order_type volume]) w)
             eq_refl).
  cbn [existsb TradeType_eqb TradeType_value Z.eqb Pos.eqb orb].
  rewrite (bind_ok _ _ _ tt _ (setitem_last w _ _ _)).
  reflexivity.
Qed.

Lemma create_order_limit_dispatch pair order_type volume r stop_rate w :
  create_order pyfloat str_float pair LIMIT order_type volume (Some r) stop_rate w
  = _make_request "POST" "/private/create-order" (Some (length (heap w))) true
      (with_heap (heap w ++ [order_params str_float pair LIMIT order_type volume
                             ++ [("rate"%string, Scalar (SStr (str_float r)))]]) w).
Proof.
  unfold create_order.
  rewrite (bind_ok (alloc _) _ w (length (heap w))
             (with_heap (heap w ++ [order_params str_float pair LIMIT order_type volume]) w)
             eq_refl).
  cbn [existsb TradeType_eqb TradeType_value Z.eqb Pos.eqb orb].
  rewrite (bind_ok _ _ _ tt _ (setitem_last w _ _ _)).
  reflexivity.
Qed.

Lemma create_order_stop_limit_dispatch pair order_type volume r sr w :
  create_order pyfloat str_float pair STOP_LIMIT order_type volume (Some r) (Some sr) w
  = _make_request "POST" "/private/create-order" (Some (length (heap w))) true
      (with_heap (heap w ++ [order_params str_float pair STOP_LIMIT order_type volume
                             ++ [("rate"%string, Scalar (SStr (str_float r)));
                                 ("stop_rate"%string, Scalar (SStr (str_float sr)))]]) w).
Proof.
  unfold create_order.
  rewrite (bind_ok (alloc _) _ w (length (heap w))
             (with_heap (heap w ++ [order_params str_float pair STOP_LIMIT order_type volume]) w)
             eq_refl).
  cbn [existsb TradeType_eqb TradeType_value Z.eqb Pos.eqb orb].
  rewrite (bind_ok _ _ _ tt _ (setitem_last w _ _ _)).
  rewrite (bind_ok _ _ _ tt _
             (setitem_last w _ "stop_rate" (Scalar (SStr (str_float sr))))).
  reflexivity.
Qed.
End OrderFacts.

(** C6. [create_order] with [LIMIT] and no rate raises [InvalidArgument]
    and sends nothing; with [STOP_LIMIT] and no stop rate it raises
    [InvalidArgument] and sends nothing, whatever the rate; with the
    required rate (and stop rate) it goes on to the private dispatch of
    [POST /private/create-order] with a dictionary that holds [rate] (and
    [stop_rate]) as strings, and when a secret is configured the request
    sent carries them in its body. *)
Theorem create_order_requires_rates (pyfloat : Type) (str_float : pyfloat -> string)
    (w : world) (pair : string) (order_type : OrderType) (volume r sr : pyfloat)
    (rate stop_rate : option pyfloat) :
  (fst (create_order pyfloat str_float pair LIMIT order_type volume None stop_rate w)
   = Raise InvalidArgument_rate /\
   InvalidArgument InvalidArgument_rate /\
   wire (snd (create_order pyfloat str_float pair LIMIT order_type volume None
                stop_rate w)) = wire w) /\
  (exists e,
      fst (create_order pyfloat str_float pair STOP_LIMIT order_type volume rate None w)
      = Raise e /\
      InvalidArgument e /\
      wire (snd (create_order pyfloat str_float pair STOP_LIMIT order_type volume rate
                   None w)) = wire w) /\
  create_order pyfloat str_float pair LIMIT order_type volume (Some r) stop_rate w
  = _make_request "POST" "/private/create-order" (Some (length (heap w))) true
      (with_heap (heap w ++ [order_params str_float pair LIMIT order_type volume
                             ++ [("rate"%string, Scalar (SStr (str_float r)))]]) w) /\
  create_order pyfloat str_float pair STOP_LIMIT order_type volume (Some r) (Some sr) w
  = _make_request "POST" "/private/create-order" (Some (length (heap w))) true
      (with_heap (heap w ++ [order_params str_float pair STOP_LIMIT order_type volume
                             ++ [("rate"%string, Scalar (SStr (str_float r)));
                                 ("stop_rate"%string, Scalar (SStr (str_float sr)))]])
                 w) /\
  (truthy (secret (config w)) = true ->
   exists req body,
     wire (snd (create_order pyfloat str_float pair STOP_LIMIT order_type volume
                  (Some r) (Some sr) w)) = wire w ++ [req] /\
     req_method req = "POST"%string /\
     req_json req = Some body /\
     dict_get body "rate" = Some (Scalar (SStr (str_float r))) /\
     dict_get body "stop_rate" = Some (Scalar (SStr (str_float sr)))).
Proof.
  split; [|split; [|split; [|split]]].
  - rewrite create_order_limit_no_rate. repeat split. now left.
  - destruct rate as [r0|].
    + exists InvalidArgument_stop_rate. rewrite create_order_stop_limit_no_stop_rate.
      repeat split. now right.
    + exists InvalidArgument_rate. rewrite create_order_stop_limit_no_rate.
      repeat split. now left.
  - apply create_order_limit_dispatch.
  - apply create_order_stop_limit_dispatch.
  - intros Hs. rewrite create_order_stop_limit_dispatch.
    set (d := order_params str_float pair STOP_LIMIT order_type volume ++ _).
    destruct (private_dispatch_sends (with_heap (heap w ++ [d]) w)
                "POST" "/private/create-order" (Some (length (heap w))) d)
      as (_ & Hw & _).
    + exact Hs.
    + simpl. apply list_lookup_middle. reflexivity.
    + split.
      * apply (bool_decide_unpack _). vm_compute. exact I.
      * repeat constructor.
    + eexists. eexists. split; [exact Hw|]. repeat split.
Qed.

Lemma create_order_requires_rates_witness :
  let w := __init__ calm (make_config (Some "tok") (Some "s"))%string in
  exists req body,
    wire (snd (create_order string (fun x => x) "BTCUSDT" STOP_LIMIT BUY "0.001"
                 (Some "50000.0") (Some "49000.0") w))%string = wire w ++ [req] /\
    req_method req = "POST"%string /\
    req_json req = Some body /\
    dict_get body "rate" = Some (Scalar (SStr "50000.0")) /\
    dict_get body "stop_rate" = Some (Scalar (SStr "49000.0")).
Proof.
  cbv zeta.
  apply (create_order_requires_rates string (fun x => x)
           (__init__ calm (make_config (Some "tok") (Some "s"))%string)
           "BTCUSDT" BUY "0.001" "50000.0" "49000.0" None None)%string.
  reflexivity.
Defined.

(** ** What the signature binds *)

Lemma string_length_app (a b : string) :
  String.length (a ++ b)%string = (String.length a + String.length b)%nat.
Proof.
  induction a as [|x a IH]; [reflexivity|].
  change (S (String.length (a ++ b)%string) = S (String.length a + String.length b)).
  now rewrite IH.
Qed.

Lemma string_app_inv_tail (a b s : string) :
  (a ++ s)%string = (b ++ s)%string -> a = b.
Proof.
  revert b. induction a as [|x a IH]; intros [|y b] H; simpl in H.
  - reflexivity.
  - exfalso. apply (f_equal String.length) in H.
    rewrite !string_length_app in H. simpl in H. lia.
  - exfalso. apply (f_equal String.length) in H.
    rewrite !string_length_app in H. simpl in H. lia.
  - change (String x (a ++ s) = String y (b ++ s))%string in H.
    injection H as -> H. f_equal. now apply IH.
Qed.

(** C7, as the code has it.  The signature binds the text of the values,
    not the parameter set: two parameter sets have the same signing input
    exactly when the concatenations of their value strings, taken in key
    order, are the same, and then they have the same signature.  Key names
    and the boundaries between values are not part of what is signed. *)
Theorem signature_binds_value_text (cfg : DexTradeConfig) (p1 p2 : pydict) :
  params_wf p1 -> params_wf p2 ->
  (signing_input cfg p1 = signing_input cfg p2
   <-> spec_value_text p1 = spec_value_text p2) /\
  (spec_value_text p1 = spec_value_text p2 ->
   _generate_signature cfg p1 = _generate_signature cfg p2).
Proof.
  intros Hwf1 Hwf2. rewrite !signing_input_spec by assumption.
  unfold spec_signing_string. split; [split|].
  - intros [= H]. now apply string_app_inv_tail in H.
  - now intros ->.
  - intros Heq. unfold _generate_signature.
    rewrite !signing_input_spec by assumption.
    unfold spec_signing_string. now rewrite Heq.
Qed.

Lemma signature_binds_value_text_witness :
  _generate_signature (make_config None (Some "s"%string))
                      [("a", Scalar (SStr "12")); ("b", Scalar (SStr "3"))]%string
  = _generate_signature (make_config None (Some "s"%string))
                        [("a", Scalar (SStr "1")); ("b", Scalar (SStr "23"))]%string.
Proof.
  apply (signature_binds_value_text (make_config None (Some "s"%string))
           [("a", Scalar (SStr "12")); ("b", Scalar (SStr "3"))]%string
           [("a", Scalar (SStr "1")); ("b", Scalar (SStr "23"))]%string).
  - apply (bool_decide_unpack _). vm_compute. exact I.
  - apply (bool_decide_unpack _). vm_compute. exact I.
  - reflexivity.
Defined.

(** C7, as stated, fails: renaming a key, or moving the boundary between
    two values, gives a different parameter set with the same signing input
    and the same signature. *)
Lemma distinct_params_same_signature :
  let cfg := make_config None (Some "s"%string) in
  let a1 := [("a", Scalar (SStr "1"))]%string in
  let b1 := [("b", Scalar (SStr "1"))]%string in
  dict_get a1 "a" = Some (Scalar (SStr "1")) /\
  dict_get b1 "a" = None /\
  signing_input cfg a1 = Ok "1s"%string /\
  signing_input cfg b1 = Ok "1s"%string /\
  _generate_signature cfg a1
  = Ok "64c83df872d808a1820aab72aa20bf2cf33b96fff4933e691e30f7646dfcc1be"%string /\
  _generate_signature cfg b1 = _generate_signature cfg a1.
Proof.
  cbv zeta. repeat split; vm_compute; reflexivity.
Qed.

(** * Further properties of the dispatcher and of the endpoint methods *)

(** ** The value a dispatch returns *)

Lemma response_steps_run (r : response) (w : world) :
  (do _ <- raise_for_status r; response_json r)%monad w = (answer (Ok r), w).
Proof.
  unfold bind, raise_for_status, response_json, raise, ret, answer.
  destruct ((400 <=? status_code r) && (status_code r <? 600)); [reflexivity|].
  now destruct (body r).
Qed.

Lemma make_request_public_run method endpoint params w :
  valid_params w params ->
  _make_request method endpoint params false w
  = (answer (server (out w) (wire w)
               (request_of method (base_url (config w) ++ endpoint)
                           (contents w params) (session_headers w))),
     with_wire (wire w ++ [request_of method (base_url (config w) ++ endpoint)
                             (contents w params) (session_headers w)]) w).
Proof.
  intros Hv. unfold _make_request.
  rewrite (bind_ok get_config _ w (config w) w eq_refl).
  rewrite (bind_ok (ret params) _ w params w eq_refl).
  unfold bind at 1. rewrite (send_run _ _ _ _ Hv).
  destruct (server _ _ _) as [resp|e]; [|reflexivity].
  apply response_steps_run.
Qed.

Lemma make_request_private_run method endpoint params w q d w0 sig :
  default_params params w = (Ok q, w0) ->
  heap w0 !! q = Some d ->
  config w0 = config w ->
  _generate_signature (config w) (stamped w0 d) = Ok sig ->
  let w2 := with_headers (headers_update (session_headers w0)
                            [("x-auth-sign", sig)]%string)
                         (stamp_world q d w0) in
  let r := request_of method (base_url (config w) ++ endpoint)
                      (Some (stamped w0 d)) (session_headers w2) in
  _make_request method endpoint params true w
  = (answer (server (out w0) (wire w0) r), with_wire (wire w0 ++ [r]) w2).
Proof.
  intros Hdef Hq Hcfg Hsig. cbv zeta. unfold _make_request.
  rewrite (bind_ok get_config _ w (config w) w eq_refl).
  pose proof (private_steps_run q d w0 Hq) as Hsteps.
  rewrite Hcfg, Hsig in Hsteps.
  pose proof (stamp_world_frame q d w0) as (_ & Ho & Hh & Hw & _).
  rewrite (bind_ok _ _ w (Some q) _ (eq_trans (bind_ok _ _ w q w0 Hdef) Hsteps)).
  unfold bind at 1. rewrite send_run.
  - simpl. rewrite (stamp_world_heap q d w0 Hq), Hw, Ho.
    destruct (server _ _ _) as [resp|e]; [|reflexivity].
    now rewrite response_steps_run.
  - simpl. rewrite (stamp_world_heap q d w0 Hq). eauto.
Qed.

(** The whole of a private dispatch with a secret, in terms of the world
    it starts from. *)
Lemma private_dispatch_run (w : world) (method endpoint : string)
    (params : option loc) (d : pydict) :
  truthy (secret (config w)) = true ->
  holds w params d ->
  params_wf d ->
  let sig := spec_sign (stamped w d) (the_str (secret (config w))) in
  let h := headers_update (session_headers w) [("x-auth-sign", sig)]%string in
  let r := request_of method (base_url (config w) ++ endpoint) (Some (stamped w d)) h in
  let run := _make_request method endpoint params true w in
  fst run = answer (server (out w) (wire w) r) /\
  wire (snd run) = wire w ++ [r] /\
  session_headers (snd run) = h /\
  config (snd run) = config w /\
  out (snd run) = out w /\
  ticks (snd run) = (if dict_contains d "request_id" then ticks w else S (ticks w)) /\
  (forall p, params = Some p -> d <> [] -> heap (snd run) !! p = Some (stamped w d)).
Proof.
  intros Hs Hd Hwf sig h r run.
  pose proof (generate_signature_spec (config w) (stamped w d) Hs (stamped_wf w d Hwf))
    as Hsig.
  assert (Hrun : exists q w0,
             default_params params w = (Ok q, w0) /\ heap w0 !! q = Some d /\
             config w0 = config w /\ out w0 = out w /\ ticks w0 = ticks w /\
             wire w0 = wire w /\ session_headers w0 = session_headers w /\
             (forall p, params = Some p -> d <> [] -> q = p)).
  { destruct (default_params_cases _ _ _ Hd) as [(p & -> & Hne & Hdef)|[-> Hdef]].
    - exists p, w. simpl in Hd. repeat split; try assumption. now intros p' [= ->].
    - exists (length (heap w)), (with_heap (heap w ++ [[]]) w).
      split; [exact Hdef|]. split; [apply new_params_heap|]. simpl.
      repeat split. intros p _ Hne. now contradiction Hne. }
  destruct Hrun as (q & w0 & Hdef & Hq & Hcfg & Hout & Hticks & Hwire & Hhdr & Hqp).
  assert (Hst : stamped w0 d = stamped w d).
  { unfold stamped, fresh_request_id. now rewrite Hout, Hticks. }
  rewrite <- Hst in Hsig.
  pose proof (make_request_private_run method endpoint params w q d w0 _
                Hdef Hq Hcfg Hsig) as Hw.
  cbv zeta in Hw. rewrite Hst, Hhdr, Hout, Hwire in Hw.
  pose proof (stamp_world_frame q d w0) as (Hc' & Ho' & _ & _ & Ht').
  unfold run. rewrite Hw. cbn [fst snd].
  split; [reflexivity|]. split; [reflexivity|]. split; [reflexivity|].
  split; [simpl; now rewrite Hc', Hcfg|].
  split; [simpl; now rewrite Ho', Hout|].
  split; [simpl; now rewrite Ht', Hticks|].
  intros p Hp Hne. rewrite (Hqp p Hp Hne) in *. simpl.
  rewrite (stamp_world_heap p d w0 Hq). now rewrite Hst.
Qed.

Lemma request_of_fields method url content h :
  req_method (request_of method url content h) = verb method /\
  req_url (request_of method url content h) = url /\
  req_headers (request_of method url content h) = h /\
  req_query (request_of method url content h)
  = (if String.eqb method "GET" then content else None) /\
  req_json (request_of method url content h)
  = (if String.eqb method "GET" then None else content).
Proof.
  unfold request_of, verb. destruct (String.eqb method "GET"); repeat split.
Qed.

(** A private dispatch on a dictionary [d] that the caller has just built. *)
Lemma private_endpoint_run (w : world) (method endpoint : string) (d : pydict) :
  truthy (secret (config w)) = true ->
  params_wf d ->
  let sig := spec_sign (stamped w d) (the_str (secret (config w))) in
  let h := headers_update (session_headers w) [("x-auth-sign", sig)]%string in
  let r := request_of method (base_url (config w) ++ endpoint) (Some (stamped w d)) h in
  let run := _make_request method endpoint (Some (length (heap w))) true
               (with_heap (heap w ++ [d]) w) in
  fst run = answer (server (out w) (wire w) r) /\
  wire (snd run) = wire w ++ [r] /\
  session_headers (snd run) = h /\
  config (snd run) = config w /\
  out (snd run) = out w /\
  ticks (snd run) = (if dict_contains d "request_id" then ticks w else S (ticks w)).
Proof.
  intros Hs Hwf.
  destruct (private_dispatch_run (with_heap (heap w ++ [d]) w) method endpoint
              (Some (length (heap w))) d) as (H1 & H2 & H3 & H4 & H5 & H6 & _).
  - exact Hs.
  - simpl. apply list_lookup_middle. reflexivity.
  - exact Hwf.
  - cbv zeta. auto 10.
Qed.

(** ** The private endpoint methods on the wire *)

(** The request of a private endpoint method is a signed POST, for the
    text that its stamped dictionary spells. *)
Lemma signed_post_intro (w : world) (path : string) (d : pydict) (text : string) :
  spec_value_text (stamped w d) = text ->
  signed_post w path (stamped w d) text
    (request_of "POST" (base_url (config w) ++ path) (Some (stamped w d))
       (headers_update (session_headers w)
          [("x-auth-sign",
            spec_sign (stamped w d) (the_str (secret (config w))))]%string)).
Proof.
  intros <-. repeat split. apply (header_get_set_eq (session_headers w) "x-auth-sign").
Qed.

(** X1. [get_balances] and [get_active_orders] with a secret send one POST
    whose body is the single entry [request_id], the clock reading in
    decimal, and whose [x-auth-sign] is the SHA-256 digest of that request
    identifier followed by the secret; they return what the exchange
    answers. *)
Theorem get_balances_on_the_wire (w : world) :
  truthy (secret (config w)) = true ->
  let rid := str_int (clock (out w) (ticks w)) in
  exists r1 r2,
    wire (snd (get_balances w)) = wire w ++ [r1] /\
    fst (get_balances w) = answer (server (out w) (wire w) r1) /\
    signed_post w "/private/balances" [("request_id"%string, Scalar (SStr rid))] rid r1 /\
    wire (snd (get_active_orders w)) = wire w ++ [r2] /\
    fst (get_active_orders w) = answer (server (out w) (wire w) r2) /\
    signed_post w "/private/orders" [("request_id"%string, Scalar (SStr rid))] rid r2.
Proof.
  intros Hs rid.
  assert (Hwf : params_wf []) by (split; constructor).
  destruct (private_endpoint_run w "POST" "/private/balances" [] Hs Hwf)
    as (Ha1 & Hw1 & _).
  destruct (private_endpoint_run w "POST" "/private/orders" [] Hs Hwf)
    as (Ha2 & Hw2 & _).
  eexists. eexists.
  split; [exact Hw1|]. split; [exact Ha1|].
  split; [apply (signed_post_intro w "/private/balances" []); reflexivity|].
  split; [exact Hw2|]. split; [exact Ha2|].
  apply (signed_post_intro w "/private/orders" []); reflexivity.
Qed.

Lemma get_balances_on_the_wire_witness :
  exists r,
    wire (snd (get_balances demo)) = [r] /\
    req_json r = Some [("request_id", Scalar (SStr "1700000000000000"))]%string /\
    header_get (req_headers r) "x-auth-sign"
    = Some "4c2b1c47ed4371d913781179a128a7c975f141785bb09f8fdb72e7fc4281b26f"%string.
Proof.
  destruct (get_balances_on_the_wire demo eq_refl)
    as (r1 & _ & Hw & _ & (_ & _ & _ & Hj & Hh) & _).
  exists r1. split; [exact Hw|]. split; [exact Hj|].
  rewrite Hh. vm_compute. reflexivity.
Defined.

Lemma scalars_wf (d : pydict) :
  dict_wf d -> Forall (fun kv => exists s, snd kv = Scalar s) d -> params_wf d.
Proof.
  intros Hwf Hs. split; [exact Hwf|].
  eapply Forall_impl; [exact Hs|]. intros [k v] [s Hv]. simpl in *. now subst.
Qed.

(** X2. [get_order] and [cancel_order] with a secret send one POST, to
    [/private/get-order] and [/private/delete-order], whose body holds
    [order_id] as the decimal string of the identifier and then the
    synthesized [request_id]; the signed text is the order identifier
    followed by the request identifier. *)
Theorem get_order_on_the_wire (w : world) (order_id : Z) :
  truthy (secret (config w)) = true ->
  let rid := str_int (clock (out w) (ticks w)) in
  let body := [("order_id", Scalar (SStr (str_int order_id)));
               ("request_id", Scalar (SStr rid))]%string in
  let text := String.concat EmptyString [str_int order_id; rid] in
  exists r1 r2,
    wire (snd (get_order order_id w)) = wire w ++ [r1] /\
    fst (get_order order_id w) = answer (server (out w) (wire w) r1) /\
    signed_post w "/private/get-order" body text r1 /\
    wire (snd (cancel_order order_id w)) = wire w ++ [r2] /\
    fst (cancel_order order_id w) = answer (server (out w) (wire w) r2) /\
    signed_post w "/private/delete-order" body text r2.
Proof.
  intros Hs rid body text.
  set (d := [("order_id"%string, Scalar (SStr (str_int order_id)))]).
  assert (Hwf : params_wf d).
  { apply scalars_wf; [apply (bool_decide_unpack _); vm_compute; exact I|].
    repeat constructor; eexists; reflexivity. }
  destruct (private_endpoint_run w "POST" "/private/get-order" d Hs Hwf)
    as (Ha1 & Hw1 & _).
  destruct (private_endpoint_run w "POST" "/private/delete-order" d Hs Hwf)
    as (Ha2 & Hw2 & _).
  eexists. eexists.
  split; [exact Hw1|]. split; [exact Ha1|].
  split; [apply (signed_post_intro w "/private/get-order" d); reflexivity|].
  split; [exact Hw2|]. split; [exact Ha2|].
  apply (signed_post_intro w "/private/delete-order" d); reflexivity.
Qed.

Lemma get_order_on_the_wire_witness :
  exists r,
    wire (snd (cancel_order 42 demo)) = [r] /\
    req_url r = "https://api.dex-trade.com/v1/private/delete-order"%string /\
    req_json r = Some [("order_id", Scalar (SStr "42"));
                       ("request_id", Scalar (SStr "1700000000000000"))]%string /\
    header_get (req_headers r) "x-auth-sign"
    = Some (Sha256.hexdigest "421700000000000000s").
Proof.
  destruct (get_order_on_the_wire demo 42 eq_refl)
    as (_ & r2 & _ & _ & _ & Hw & _ & (_ & Hu & _ & Hj & Hh)).
  exists r2. split; [exact Hw|]. split; [exact Hu|]. split; [exact Hj|]. exact Hh.
Defined.

(** X3. What [create_order] with a secret puts on the wire.  The body
    holds [pair], [type_trade], [type], [volume], then [rate] and
    [stop_rate] when the trade type takes them, then [request_id]; the
    signed text takes the values in the order of the sorted keys: pair,
    rate, request identifier, stop rate, order type, trade type, volume. *)
Theorem create_order_on_the_wire (pyfloat : Type) (str_float : pyfloat -> string)
    (w : world) (pair : string) (type_trade : TradeType) (order_type : OrderType)
    (volume r sr : pyfloat) (rate stop_rate : option pyfloat) :
  truthy (secret (config w)) = true ->
  existsb (TradeType_eqb type_trade) [LIMIT; STOP_LIMIT] = false ->
  let rid := str_int (clock (out w) (ticks w)) in
  let ot := str_int (OrderType_value order_type) in
  let vol := str_float volume in
  let request_id := [("request_id"%string, Scalar (SStr rid))] in
  let rate_entry := [("rate"%string, Scalar (SStr (str_float r)))] in
  let stop_entry := [("stop_rate"%string, Scalar (SStr (str_float sr)))] in
  exists r1 r2 r3,
    (* STOP_LIMIT with both rates *)
    wire (snd (create_order pyfloat str_float pair STOP_LIMIT order_type volume
                 (Some r) (Some sr) w)) = wire w ++ [r1] /\
    signed_post w "/private/create-order"
      (order_params str_float pair STOP_LIMIT order_type volume
       ++ rate_entry ++ stop_entry ++ request_id)
      (String.concat EmptyString
         [pair; str_float r; rid; str_float sr; ot; "2"%string; vol]) r1 /\
    (* LIMIT with a rate *)
    wire (snd (create_order pyfloat str_float pair LIMIT order_type volume
                 (Some r) stop_rate w)) = wire w ++ [r2] /\
    signed_post w "/private/create-order"
      (order_params str_float pair LIMIT order_type volume ++ rate_entry ++ request_id)
      (String.concat EmptyString [pair; str_float r; rid; ot; "0"%string; vol]) r2 /\
    (* the other trade types *)
    wire (snd (create_order pyfloat str_float pair type_trade order_type volume
                 rate stop_rate w)) = wire w ++ [r3] /\
    signed_post w "/private/create-order"
      (order_params str_float pair type_trade order_type volume ++ request_id)
      (String.concat EmptyString
         [pair; rid; ot; str_int (TradeType_value type_trade); vol]) r3.
Proof.
  intros Hs Hother rid ot vol request_id rate_entry stop_entry.
  assert (Hwf : forall d : pydict,
             bool_decide (dict_wf d) = true ->
             Forall (fun kv => exists s, snd kv = Scalar s) d -> params_wf d).
  { intros d Hd. apply scalars_wf. now apply bool_decide_eq_true in Hd. }
  rewrite create_order_stop_limit_dispatch, create_order_limit_dispatch.
  set (d1 := order_params str_float pair STOP_LIMIT order_type volume ++ _).
  set (d2 := order_params str_float pair LIMIT order_type volume ++ _).
  set (d3 := order_params str_float pair type_trade order_type volume).
  assert (H3 : create_order pyfloat str_float pair type_trade order_type volume
                 rate stop_rate w
               = _make_request "POST" "/private/create-order" (Some (length (heap w)))
                   true (with_heap (heap w ++ [d3]) w)).
  { destruct type_trade; try discriminate Hother; reflexivity. }
  rewrite H3.
  destruct (private_endpoint_run w "POST" "/private/create-order" d1 Hs)
    as (_ & Hw1 & _).
  { apply Hwf; [reflexivity | repeat constructor; eexists; reflexivity]. }
  destruct (private_endpoint_run w "POST" "/private/create-order" d2 Hs)
    as (_ & Hw2 & _).
  { apply Hwf; [reflexivity | repeat constructor; eexists; reflexivity]. }
  destruct (private_endpoint_run w "POST" "/private/create-order" d3 Hs)
    as (_ & Hw3 & _).
  { apply Hwf; [reflexivity | repeat constructor; eexists; reflexivity]. }
  eexists. eexists. eexists.
  split; [exact Hw1|].
  split; [apply (signed_post_intro w "/private/create-order" d1); reflexivity|].
  split; [exact Hw2|].
  split; [apply (signed_post_intro w "/private/create-order" d2); reflexivity|].
  split; [exact Hw3|].
  apply (signed_post_intro w "/private/create-order" d3).
  destruct type_trade; try discriminate Hother; reflexivity.
Qed.

Lemma create_order_on_the_wire_witness :
  exists r,
    wire (snd (create_order string (fun x => x) "BTCUSDT" LIMIT BUY "0.001"
                 (Some "50000.0") None demo))%string = [r] /\
    req_json r = Some [("pair", Scalar (SStr "BTCUSDT"));
                       ("type_trade", Scalar (SInt 0));
                       ("type", Scalar (SInt 0));
                       ("volume", Scalar (SStr "0.001"));
                       ("rate", Scalar (SStr "50000.0"));
                       ("request_id", Scalar (SStr "1700000000000000"))]%string /\
    header_get (req_headers r) "x-auth-sign"
    = Some (Sha256.hexdigest "BTCUSDT50000.01700000000000000000.001s").
Proof.
  destruct (create_order_on_the_wire string (fun x => x) demo "BTCUSDT" MARKET BUY
              "0.001" "50000.0" "49000.0" None None eq_refl eq_refl)%string
    as (_ & r2 & _ & _ & _ & Hw & (_ & _ & _ & Hj & Hh) & _).
  exists r2. split; [exact Hw|]. split; [exact Hj|]. exact Hh.
Defined.

(** X4. [create_order] reads [rate] only for [LIMIT] and [STOP_LIMIT] and
    [stop_rate] only for [STOP_LIMIT]: for any other trade type
    ([HIDDEN_LIMIT] included) a call never fails on a missing rate and a
    rate or stop rate that is supplied is dropped, and a [LIMIT] order drops
    a supplied stop rate. *)
Theorem create_order_ignores_unused_rates (pyfloat : Type)
    (str_float : pyfloat -> string) (w : world) (pair : string)
    (type_trade : TradeType) (order_type : OrderType) (volume r : pyfloat)
    (rate stop_rate : option pyfloat) :
  existsb (TradeType_eqb type_trade) [LIMIT; STOP_LIMIT] = false ->
  create_order pyfloat str_float pair type_trade order_type volume rate stop_rate w
  = _make_request "POST" "/private/create-order" (Some (length (heap w))) true
      (with_heap (heap w ++ [order_params str_float pair type_trade order_type volume])
                 w) /\
  create_order pyfloat str_float pair type_trade order_type volume rate stop_rate w
  = create_order pyfloat str_float pair type_trade order_type volume None None w /\
  create_order pyfloat str_float pair LIMIT order_type volume (Some r) stop_rate w
  = create_order pyfloat str_float pair LIMIT order_type volume (Some r) None w.
Proof.
  intros Hother. split; [|split].
  - destruct type_trade; try discriminate Hother; reflexivity.
  - destruct type_trade; try discriminate Hother; reflexivity.
  - now rewrite !create_order_limit_dispatch.
Qed.

Lemma create_order_ignores_unused_rates_witness :
  create_order string (fun x => x) "BTCUSDT" HIDDEN_LIMIT SELL "2" (Some "9") (Some "8")
    demo_no_secret
  = create_order string (fun x => x) "BTCUSDT" HIDDEN_LIMIT SELL "2" None None
      demo_no_secret.
Proof.
  apply (create_order_ignores_unused_rates string (fun x => x) demo_no_secret
           "BTCUSDT" HIDDEN_LIMIT SELL "2" "9" (Some "9") (Some "8"))%string.
  reflexivity.
Defined.

(** X5. [get_deposit_address] with a secret sends one POST to
    [/private/get-address].  The body holds [iso], then [new] as the
    integer 1 or 0, then [network] only when a non-empty network is given,
    then [request_id]; the signed text is the currency, the network if any,
    the digit of [new], and the request identifier. *)
Theorem get_deposit_address_on_the_wire (w : world) (currency net : string)
    (network : option string) (new : bool) :
  truthy (secret (config w)) = true ->
  net <> EmptyString ->
  truthy network = false ->
  let rid := str_int (clock (out w) (ticks w)) in
  let flag := if new then 1 else 0 in
  let base := [("iso", Scalar (SStr currency)); ("new", Scalar (SInt flag))]%string in
  let request_id := [("request_id"%string, Scalar (SStr rid))] in
  exists r1 r2,
    wire (snd (get_deposit_address currency (Some net) new w)) = wire w ++ [r1] /\
    fst (get_deposit_address currency (Some net) new w)
    = answer (server (out w) (wire w) r1) /\
    signed_post w "/private/get-address"
      (base ++ [("network"%string, Scalar (SStr net))] ++ request_id)
      (String.concat EmptyString [currency; net; str_int flag; rid]) r1 /\
    wire (snd (get_deposit_address currency network new w)) = wire w ++ [r2] /\
    fst (get_deposit_address currency network new w)
    = answer (server (out w) (wire w) r2) /\
    signed_post w "/private/get-address" (base ++ request_id)
      (String.concat EmptyString [currency; str_int flag; rid]) r2.
Proof.
  intros Hs Hnet Hnone rid flag base request_id.
  assert (Hwf : forall d : pydict,
             bool_decide (dict_wf d) = true ->
             Forall (fun kv => exists s, snd kv = Scalar s) d -> params_wf d).
  { intros d Hd. apply scalars_wf. now apply bool_decide_eq_true in Hd. }
  assert (Htr : truthy (Some net) = true).
  { simpl. destruct (String.eqb_spec net EmptyString); [contradiction | reflexivity]. }
  set (d1 := base ++ [("network"%string, Scalar (SStr net))]).
  assert (H1 : get_deposit_address currency (Some net) new w
               = _make_request "POST" "/private/get-address" (Some (length (heap w)))
                   true (with_heap (heap w ++ [d1]) w)).
  { unfold get_deposit_address.
    rewrite (bind_ok (alloc _) _ w (length (heap w))
               (with_heap (heap w ++ [base]) w) eq_refl).
    rewrite Htr. rewrite (bind_ok _ _ _ tt _ (setitem_last w _ _ _)). reflexivity. }
  assert (H2 : get_deposit_address currency network new w
               = _make_request "POST" "/private/get-address" (Some (length (heap w)))
                   true (with_heap (heap w ++ [base]) w)).
  { unfold get_deposit_address.
    rewrite (bind_ok (alloc _) _ w (length (heap w))
               (with_heap (heap w ++ [base]) w) eq_refl).
    rewrite Hnone. reflexivity. }
  rewrite H1, H2.
  destruct (private_endpoint_run w "POST" "/private/get-address" d1 Hs)
    as (Ha1 & Hw1 & _).
  { apply Hwf; [reflexivity | repeat constructor; eexists; reflexivity]. }
  destruct (private_endpoint_run w "POST" "/private/get-address" base Hs)
    as (Ha2 & Hw2 & _).
  { apply Hwf; [reflexivity | repeat constructor; eexists; reflexivity]. }
  eexists. eexists.
  split; [exact Hw1|]. split; [exact Ha1|].
  split; [apply (signed_post_intro w "/private/get-address" d1); reflexivity|].
  split; [exact Hw2|]. split; [exact Ha2|].
  apply (signed_post_intro w "/private/get-address" base); reflexivity.
Qed.

Lemma get_deposit_address_on_the_wire_witness :
  exists r1 r2,
    wire (snd (get_deposit_address "USDT" (Some "TRC20") true demo))%string = [r1] /\
    req_json r1 = Some [("iso", Scalar (SStr "USDT")); ("new", Scalar (SInt 1));
                        ("network", Scalar (SStr "TRC20"));
                        ("request_id", Scalar (SStr "1700000000000000"))]%string /\
    header_get (req_headers r1) "x-auth-sign"
    = Some (Sha256.hexdigest "USDTTRC2011700000000000000s") /\
    wire (snd (get_deposit_address "USDT" (Some EmptyString) true demo))%string = [r2] /\
    req_json r2 = Some [("iso", Scalar (SStr "USDT")); ("new", Scalar (SInt 1));
                        ("request_id", Scalar (SStr "1700000000000000"))]%string.
Proof.
  destruct (get_deposit_address_on_the_wire demo "USDT" "TRC20" (Some EmptyString) true
              eq_refl)%string
    as (r1 & r2 & Hw1 & _ & (_ & _ & _ & Hj1 & Hh1) & Hw2 & _ & (_ & _ & _ & Hj2 & _)).
  - discriminate.
  - reflexivity.
  - exists r1, r2. repeat split; assumption.
Defined.

(** ** Private endpoint methods without a secret *)

Lemma private_endpoint_no_secret (w : world) (method endpoint : string) (d : pydict) :
  truthy (secret (config w)) = false ->
  fst (_make_request method endpoint (Some (length (heap w))) true
         (with_heap (heap w ++ [d]) w)) = Raise MissingSecret /\
  wire (snd (_make_request method endpoint (Some (length (heap w))) true
               (with_heap (heap w ++ [d]) w))) = wire w.
Proof.
  intros Hs.
  destruct (private_dispatch_no_secret method endpoint (Some (length (heap w)))
              (with_heap (heap w ++ [d]) w)) as (Hr & Hw & _); [exact Hs | | auto].
  exists d. simpl. apply list_lookup_middle. reflexivity.
Qed.

(** X6. Without a secret every private endpoint method that gets past its
    own argument checks raises [MissingSecret] and sends nothing:
    [get_order], [cancel_order], [get_deposit_address], and [create_order]
    once its rates are in order. *)
Theorem private_endpoints_need_secret (pyfloat : Type) (str_float : pyfloat -> string)
    (w : world) (order_id : Z) (currency pair : string) (network : option string)
    (new : bool) (type_trade : TradeType) (order_type : OrderType)
    (volume r sr : pyfloat) (rate stop_rate : option pyfloat) :
  truthy (secret (config w)) = false ->
  existsb (TradeType_eqb type_trade) [LIMIT; STOP_LIMIT] = false ->
  Forall (fun run : result json * world =>
            fst run = Raise MissingSecret /\ wire (snd run) = wire w)
    [ get_order order_id w;
      cancel_order order_id w;
      get_deposit_address currency network new w;
      create_order pyfloat str_float pair STOP_LIMIT order_type volume (Some r) (Some sr) w;
      create_order pyfloat str_float pair LIMIT order_type volume (Some r) stop_rate w;
      create_order pyfloat str_float pair type_trade order_type volume rate stop_rate w ].
Proof.
  intros Hs Hother. repeat apply Forall_cons_2; [..|apply Forall_nil_2].
  - now apply private_endpoint_no_secret.
  - now apply private_endpoint_no_secret.
  - unfold get_deposit_address.
    rewrite (bind_ok (alloc _) _ w (length (heap w))
               (with_heap (heap w ++ [[("iso", Scalar (SStr currency));
                                       ("new", Scalar (SInt (if new then 1 else 0)))]%string])
                          w) eq_refl).
    destruct (truthy network).
    + rewrite (bind_ok _ _ _ tt _ (setitem_last w _ _ _)).
      now apply private_endpoint_no_secret.
    + now apply private_endpoint_no_secret.
  - rewrite create_order_stop_limit_dispatch. now apply private_endpoint_no_secret.
  - rewrite create_order_limit_dispatch. now apply private_endpoint_no_secret.
  - replace (create_order pyfloat str_float pair type_trade order_type volume rate
               stop_rate w)
      with (_make_request "POST" "/private/create-order" (Some (length (heap w))) true
              (with_heap (heap w ++ [order_params str_float pair type_trade order_type
                                       volume]) w))
      by (destruct type_trade; try discriminate Hother; reflexivity).
    now apply private_endpoint_no_secret.
Qed.

Lemma private_endpoints_need_secret_witness :
  fst (cancel_order 42 demo_no_secret) = Raise MissingSecret /\
  wire (snd (cancel_order 42 demo_no_secret)) = [] /\
  fst (create_order string (fun x => x) "BTCUSDT" LIMIT BUY "0.001" (Some "50000.0") None
         demo_no_secret)%string = Raise MissingSecret.
Proof.
  pose proof (private_endpoints_need_secret string (fun x => x) demo_no_secret 42
                "USDT" "BTCUSDT" None false MARKET BUY "0.001" "50000.0" "1" None None
                eq_refl eq_refl)%string as H.
  apply Forall_cons_1 in H as [_ H].
  apply Forall_cons_1 in H as [[H1 H2] H].
  apply Forall_cons_1 in H as [_ H].
  apply Forall_cons_1 in H as [_ H].
  apply Forall_cons_1 in H as [[H3 _] _].
  split; [exact H1|]. split; [exact H2 | exact H3].
Defined.

(** ** The public endpoint methods *)

Lemma public_endpoint_run (w : world) (endpoint : string) (d : pydict) :
  let r := request_of "GET" (base_url (config w) ++ endpoint) (Some d)
             (session_headers w) in
  _make_request "GET" endpoint (Some (length (heap w))) false
    (with_heap (heap w ++ [d]) w)
  = (answer (server (out w) (wire w) r),
     with_wire (wire w ++ [r]) (with_heap (heap w ++ [d]) w)).
Proof.
  cbv zeta. rewrite make_request_public_run.
  - simpl. rewrite list_lookup_middle by reflexivity. reflexivity.
  - simpl. rewrite list_lookup_middle by reflexivity. eauto.
Qed.

(** X7. [get_ticker], [get_order_book] and [get_trade_history] each send
    one GET, to [/public/ticker], [/public/book] and [/public/trades], with
    the pair as the only query parameter and the session headers as they
    are; they need no secret, read no clock, leave the session headers
    alone and return what the exchange answers. *)
Theorem public_pair_endpoints (w : world) (pair : string) :
  Forall (fun pr : string * (result json * world) =>
            exists r,
              plain_get w (fst pr) (Some [("pair"%string, Scalar (SStr pair))]) r /\
              fst (snd pr) = answer (server (out w) (wire w) r) /\
              wire (snd (snd pr)) = wire w ++ [r] /\
              session_headers (snd (snd pr)) = session_headers w /\
              ticks (snd (snd pr)) = ticks w)
    [ ("/public/ticker"%string, get_ticker pair w);
      ("/public/book"%string, get_order_book pair w);
      ("/public/trades"%string, get_trade_history pair w) ].
Proof.
  repeat apply Forall_cons_2; [..|apply Forall_nil_2]; cbn [fst snd].
  - unfold get_ticker.
    rewrite (bind_ok (alloc _) _ w (length (heap w))
               (with_heap (heap w ++ [[("pair"%string, Scalar (SStr pair))]]) w) eq_refl).
    rewrite public_endpoint_run.
    exists (request_of "GET" (base_url (config w) ++ "/public/ticker")
              (Some [("pair"%string, Scalar (SStr pair))]) (session_headers w)).
    repeat split.
  - unfold get_order_book.
    rewrite (bind_ok (alloc _) _ w (length (heap w))
               (with_heap (heap w ++ [[("pair"%string, Scalar (SStr pair))]]) w) eq_refl).
    rewrite public_endpoint_run.
    exists (request_of "GET" (base_url (config w) ++ "/public/book")
              (Some [("pair"%string, Scalar (SStr pair))]) (session_headers w)).
    repeat split.
  - unfold get_trade_history.
    rewrite (bind_ok (alloc _) _ w (length (heap w))
               (with_heap (heap w ++ [[("pair"%string, Scalar (SStr pair))]]) w) eq_refl).
    rewrite public_endpoint_run.
    exists (request_of "GET" (base_url (config w) ++ "/public/trades")
              (Some [("pair"%string, Scalar (SStr pair))]) (session_headers w)).
    repeat split.
Qed.


(** ** Every dispatch *)

Lemma dispatch_shape_private_from method endpoint params w q d w0 :
  default_params params w = (Ok q, w0) ->
  heap w0 !! q = Some d ->
  config w0 = config w ->
  wire w0 = wire w ->
  session_headers w0 = session_headers w ->
  ticks w0 = ticks w ->
  let w' := snd (_make_request method endpoint params true w) in
  (wire w' = wire w \/
   exists r, wire w' = wire w ++ [r] /\
             req_method r = verb method /\
             req_url r = (base_url (config w) ++ endpoint)%string /\
             other_headers (req_headers r) = other_headers (session_headers w)) /\
  (ticks w' = ticks w \/ ticks w' = S (ticks w)) /\
  config w' = config w.
Proof.
  intros Hdef Hq Hcfg Hwire Hh Ht. cbv zeta.
  pose proof (make_request_private method endpoint params w q d w0 Hdef Hq Hcfg) as H.
  pose proof (stamp_world_frame q d w0) as (Hc' & _ & Hh' & Hw' & Ht').
  assert (Hticks : ticks (stamp_world q d w0) = ticks w \/
                   ticks (stamp_world q d w0) = S (ticks w)).
  { rewrite Ht', Ht. destruct (dict_contains d "request_id"); auto. }
  destruct (_generate_signature (config w) (stamped w0 d)) as [sig|e].
  - cbv zeta in H. rewrite H. cbn [snd wire ticks config with_wire with_headers].
    split; [right|split; [exact Hticks | now rewrite Hc', Hcfg]].
    eexists. split; [now rewrite Hwire|].
    unfold request_of, verb.
    destruct (String.eqb method "GET");
      cbn [req_method req_url req_headers session_headers with_headers];
      rewrite Hh; (split; [reflexivity|]; split; [reflexivity|]);
      apply other_headers_set.
  - rewrite H. cbn [snd]. rewrite Hw', Hwire, Hc', Hcfg. auto.
Qed.

(** X9. A dispatch hands at most one request to the transport and never
    touches the requests sent before; the request goes to the base URL
    followed by the endpoint as given, as a GET when the method is ["GET"]
    and as a POST for every other method string, and carries every
    persistent header of the session.  It reads the clock at most once, and
    not at all on a public call, which also leaves the dictionaries and the
    session headers as they are. *)
Theorem dispatch_sends_at_most_once (w : world) (method endpoint : string)
    (params : option loc) (private : bool) :
  let w' := snd (_make_request method endpoint params private w) in
  (wire w' = wire w \/
   exists r, wire w' = wire w ++ [r] /\
             req_method r = verb method /\
             req_url r = (base_url (config w) ++ endpoint)%string /\
             other_headers (req_headers r) = other_headers (session_headers w)) /\
  (ticks w' = ticks w \/ ticks w' = S (ticks w)) /\
  config w' = config w /\
  (if private then True
   else ticks w' = ticks w /\ heap w' = heap w /\
        session_headers w' = session_headers w).
Proof.
  cbv zeta. destruct private.
  - assert (Hgoal : forall A B C : Prop, A /\ B /\ C -> A /\ B /\ C /\ True) by tauto.
    apply Hgoal.
    assert (Hnew : holds w params [] ->
              let w' := snd (_make_request method endpoint params true w) in
              (wire w' = wire w \/
               exists r, wire w' = wire w ++ [r] /\
                         req_method r = verb method /\
                         req_url r = (base_url (config w) ++ endpoint)%string /\
                         other_headers (req_headers r)
                         = other_headers (session_headers w)) /\
              (ticks w' = ticks w \/ ticks w' = S (ticks w)) /\
              config w' = config w).
    { intros H. apply (dispatch_shape_private_from method endpoint params w
                         (length (heap w)) [] (with_heap (heap w ++ [[]]) w));
        [now apply default_params_new | apply new_params_heap | reflexivity..]. }
    destruct params as [p|]; [|now apply Hnew].
    destruct (heap w !! p) as [d|] eqn:Hp.
    + destruct d as [|x d]; [now apply Hnew|].
      apply (dispatch_shape_private_from method endpoint (Some p) w p (x :: d) w);
        [now apply (default_params_kept p (x :: d)) | exact Hp | reflexivity..].
    + rewrite (make_request_private_invalid _ _ _ _ Hp). cbn [snd]. auto.
  - destruct params as [p|].
    + destruct (heap w !! p) as [d|] eqn:Hp.
      * rewrite make_request_public_run by (simpl; rewrite Hp; eauto).
        cbn [snd wire ticks config heap session_headers with_wire].
        split; [right|auto]. eexists. split; [reflexivity|].
        destruct (request_of_fields method (base_url (config w) ++ endpoint)
                    (contents w (Some p)) (session_headers w)) as (Hm & Hu & Hhd & _).
        now rewrite Hhd.
      * rewrite (make_request_public_invalid _ _ _ _ Hp). cbn [snd]. auto 10.
    + rewrite make_request_public_run by exact I.
      cbn [snd wire ticks config heap session_headers with_wire].
      split; [right|auto]. eexists. split; [reflexivity|].
      destruct (request_of_fields method (base_url (config w) ++ endpoint)
                  (contents w None) (session_headers w)) as (Hm & Hu & Hhd & _).
      now rewrite Hhd.
Qed.

(** X10. A public dispatch on parameters the caller holds sends exactly one
    request and returns what [answer] makes of the reply: with method
    ["GET"] the parameters travel as the query, with any other method
    string, ["DELETE"] or ["get"] included, the request is a POST with the
    parameters as its JSON body.  A transport failure is passed on, a status
    from 400 to 599 raises [HTTPError] whatever the body, and otherwise the
    decoded body is returned. *)
Theorem public_dispatch_behaviour (w : world) (method endpoint : string)
    (params : option loc) :
  valid_params w params ->
  exists r,
    _make_request method endpoint params false w
    = (answer (server (out w) (wire w) r), with_wire (wire w ++ [r]) w) /\
    req_url r = (base_url (config w) ++ endpoint)%string /\
    req_headers r = session_headers w /\
    (if String.eqb method "GET"
     then req_method r = "GET"%string /\
          req_query r = contents w params /\ req_json r = None
     else req_method r = "POST"%string /\
          req_query r = None /\ req_json r = contents w params).
Proof.
  intros Hv. eexists. split; [now apply make_request_public_run|].
  unfold request_of. destruct (String.eqb method "GET"); repeat split.
Qed.

Lemma public_dispatch_behaviour_witness :
  let w := with_heap [[("pair", Scalar (SStr "BTCUSDT"))]]%string demo_no_secret in
  exists r,
    wire (snd (_make_request "DELETE" "/public/ticker" (Some 0%nat) false w)) = [r] /\
    req_method r = "POST"%string /\
    req_json r = Some [("pair", Scalar (SStr "BTCUSDT"))]%string /\
    fst (_make_request "DELETE" "/public/ticker" (Some 0%nat) false w) = Ok (JObj []).
Proof.
  cbv zeta.
  destruct (public_dispatch_behaviour
              (with_heap [[("pair", Scalar (SStr "BTCUSDT"))]]%string demo_no_secret)
              "DELETE" "/public/ticker" (Some 0%nat))
    as (r & Hrun & _ & _ & Hm & _ & Hj).
  - exists [("pair", Scalar (SStr "BTCUSDT"))]%string. reflexivity.
  - exists r. rewrite Hrun. cbn [fst snd]. split; [reflexivity|].
    split; [exact Hm|]. split; [exact Hj|]. reflexivity.
Defined.

(** X11. When the exchange answers a private dispatch with a status from
    400 to 599, the dispatch raises [HTTPError] with that status; by then
    the signed request has been sent once, and its signature stays in the
    session headers. *)
Theorem private_http_error_after_signing (w : world) (method endpoint : string)
    (params : option loc) (d : pydict) :
  truthy (secret (config w)) = true ->
  holds w params d ->
  params_wf d ->
  let run := _make_request method endpoint params true w in
  exists r sig,
    wire (snd run) = wire w ++ [r] /\
    fst run = answer (server (out w) (wire w) r) /\
    header_get (req_headers r) "x-auth-sign" = Some sig /\
    header_get (session_headers (snd run)) "x-auth-sign" = Some sig /\
    (forall resp,
        server (out w) (wire w) r = Ok resp ->
        (400 <=? status_code resp) && (status_code resp <? 600) = true ->
        fst run = Raise (HTTPError (status_code resp))).
Proof.
  intros Hs Hd Hwf run.
  destruct (private_dispatch_run w method endpoint params d Hs Hd Hwf)
    as (Ha & Hw & Hh & _).
  fold run in Ha, Hw, Hh.
  eexists. eexists. split; [exact Hw|]. split; [exact Ha|].
  split.
  { unfold request_of. destruct (String.eqb method "GET");
      apply (header_get_set_eq (session_headers w) "x-auth-sign"). }
  split; [rewrite Hh; apply (header_get_set_eq (session_headers w) "x-auth-sign")|].
  intros resp Hresp Hst. rewrite Ha, Hresp. unfold answer. now rewrite Hst.
Qed.

Lemma private_http_error_after_signing_witness :
  let w := __init__ failing (make_config None (Some "s"%string)) in
  fst (_make_request "POST" "/private/balances" None true w) = Raise (HTTPError 500) /\
  length (wire (snd (_make_request "POST" "/private/balances" None true w))) = 1%nat.
Proof.
  cbv zeta.
  destruct (private_http_error_after_signing
              (__init__ failing (make_config None (Some "s"%string)))
              "POST" "/private/balances" None [])
    as (r & sig & Hw & _ & _ & _ & Herr).
  - reflexivity.
  - reflexivity.
  - split; constructor.
  - split; [apply (Herr {| status_code := 500; body := Some (JObj []) |}); reflexivity|].
    rewrite Hw. reflexivity.
Defined.

(** ** Request identifiers *)

Lemma stamped_contains (w : world) (d : pydict) :
  dict_contains (stamped w d) "request_id" = true.
Proof.
  unfold stamped. destruct (dict_contains d "request_id") eqn:Hc; [exact Hc|].
  unfold dict_contains. now rewrite dict_get_set_eq.
Qed.

(** X12. A dictionary that has been through a private dispatch keeps the
    [request_id] it was given: a second private dispatch on the same
    dictionary does not read the clock and sends the same parameters under
    the same signature as the first. *)
Theorem same_dictionary_same_request_id (w : world) (m1 e1 m2 e2 : string)
    (p : loc) (d : pydict) :
  truthy (secret (config w)) = true ->
  heap w !! p = Some d ->
  d <> [] ->
  params_wf d ->
  let w1 := snd (_make_request m1 e1 (Some p) true w) in
  let w2 := snd (_make_request m2 e2 (Some p) true w1) in
  exists r1 r2,
    wire w2 = wire w ++ [r1; r2] /\
    payload r1 = Some (stamped w d) /\
    payload r2 = Some (stamped w d) /\
    header_get (req_headers r2) "x-auth-sign"
    = header_get (req_headers r1) "x-auth-sign" /\
    ticks w2 = ticks w1.
Proof.
  intros Hs Hp Hne Hwf w1 w2.
  destruct (private_dispatch_run w m1 e1 (Some p) d Hs Hp Hwf)
    as (_ & Hw1 & _ & Hc1 & _ & _ & Hheap).
  specialize (Hheap p eq_refl Hne). fold w1 in Hw1, Hc1, Hheap.
  assert (Hs1 : truthy (secret (config w1)) = true) by now rewrite Hc1.
  destruct (private_dispatch_run w1 m2 e2 (Some p) (stamped w d) Hs1 Hheap
              (stamped_wf w d Hwf)) as (_ & Hw2 & _ & _ & _ & Ht2 & _).
  fold w2 in Hw2, Ht2.
  rewrite stamped_contains in Ht2.
  rewrite (stamped_present w1 (stamped w d) (stamped_contains w d)) in Hw2.
  eexists. eexists. split.
  { rewrite Hw2, Hw1, <- app_assoc. reflexivity. }
  split; [apply payload_request_of|]. split; [apply payload_request_of|].
  split; [|exact Ht2].
  rewrite Hc1. unfold request_of.
  destruct (String.eqb m1 "GET"), (String.eqb m2 "GET");
    unfold headers_update; cbn [req_headers fold_left fst snd];
    now rewrite (header_get_set_eq (session_headers w1) "x-auth-sign"),
                (header_get_set_eq (session_headers w) "x-auth-sign").
Qed.

Lemma same_dictionary_same_request_id_witness :
  let w := with_heap [[("order_id", Scalar (SStr "7"))]]%string demo in
  let w1 := snd (_make_request "POST" "/private/get-order" (Some 0%nat) true w) in
  let w2 := snd (_make_request "POST" "/private/delete-order" (Some 0%nat) true w1) in
  exists r1 r2,
    wire w2 = [r1; r2] /\
    payload r1 = payload r2 /\
    payload r2 = Some [("order_id", Scalar (SStr "7"));
                       ("request_id", Scalar (SStr "1700000000000000"))]%string /\
    ticks w2 = 1%nat.
Proof.
  cbv zeta.
  destruct (same_dictionary_same_request_id
              (with_heap [[("order_id", Scalar (SStr "7"))]]%string demo)
              "POST" "/private/get-order" "POST" "/private/delete-order" 0%nat
              [("order_id", Scalar (SStr "7"))]%string)
    as (r1 & r2 & Hw & H1 & H2 & _ & Ht).
  - reflexivity.
  - reflexivity.
  - discriminate.
  - apply (bool_decide_unpack _). vm_compute. exact I.
  - exists r1, r2. split; [exact Hw|]. split; [now rewrite H1, H2|].
    split; [exact H2|]. rewrite Ht. vm_compute. reflexivity.
Defined.

Lemma str_int_inj (n m : Z) : str_int n = str_int m -> n = m.
Proof.
  unfold str_int. intros H. apply DecimalZ.to_int_inj.
  assert (Hnn : forall z, Z.to_int z <> Decimal.Pos Decimal.Nil /\
                          Z.to_int z <> Decimal.Neg Decimal.Nil).
  { intros [|p|p]; simpl; split; try discriminate; intros [= Hp];
      now apply (DecimalPos.Unsigned.to_uint_nonnil p). }
  apply (f_equal NilZero.int_of_string) in H.
  rewrite !NilZero.isi in H by apply Hnn. now injection H.
Qed.

Lemma header_set_twice (h : headers) (k v v' : string) :
  header_set (header_set h k v) k v' = header_set h k v'.
Proof.
  induction h as [|[k0 v0] h IH]; simpl.
  - now rewrite String.eqb_refl.
  - destruct (String.eqb (lower k0) (lower k)) eqn:E; simpl.
    + now rewrite String.eqb_refl.
    + now rewrite E, IH.
Qed.

(** X13. The request identifier is the clock reading and nothing else: two
    [get_balances] calls in a row send the readings number [n] and [n + 1]
    of the clock as their [request_id]; when the two readings are equal the
    two requests are identical, signature included, and when they differ so
    do the bodies. *)
Theorem request_ids_follow_the_clock (w : world) :
  truthy (secret (config w)) = true ->
  let t1 := clock (out w) (ticks w) in
  let t2 := clock (out w) (S (ticks w)) in
  exists r1 r2,
    wire (snd (get_balances (snd (get_balances w)))) = wire w ++ [r1; r2] /\
    req_json r1 = Some [("request_id"%string, Scalar (SStr (str_int t1)))] /\
    req_json r2 = Some [("request_id"%string, Scalar (SStr (str_int t2)))] /\
    (t1 = t2 -> r1 = r2) /\
    (t1 <> t2 -> req_json r1 <> req_json r2).
Proof.
  intros Hs t1 t2.
  assert (Hwf : params_wf []) by (split; constructor).
  pose proof (private_endpoint_run w "POST" "/private/balances" [] Hs Hwf) as H1.
  cbv zeta in H1. destruct H1 as (_ & Hw1 & Hh1 & Hc1 & Ho1 & Ht1).
  change (_make_request "POST" "/private/balances" (Some (length (heap w))) true
            (with_heap (heap w ++ [[]]) w)) with (get_balances w) in *.
  set (w1 := snd (get_balances w)) in *.
  assert (Hs1 : truthy (secret (config w1)) = true) by now rewrite Hc1.
  pose proof (private_endpoint_run w1 "POST" "/private/balances" [] Hs1 Hwf) as H2.
  cbv zeta in H2. destruct H2 as (_ & Hw2 & _).
  change (_make_request "POST" "/private/balances" (Some (length (heap w1))) true
            (with_heap (heap w1 ++ [[]]) w1)) with (get_balances w1) in *.
  assert (Hst : stamped w1 [] = [("request_id"%string, Scalar (SStr (str_int t2)))]).
  { unfold stamped, fresh_request_id. simpl. now rewrite Ho1, Ht1. }
  rewrite Hst, Hc1, Hh1, Hw1, <- app_assoc in Hw2.
  eexists. eexists. split; [exact Hw2|].
  split; [reflexivity|]. split; [reflexivity|]. split.
  - intros Heq.
    assert (Hst0 : stamped w [] = [("request_id"%string, Scalar (SStr (str_int t1)))])
      by reflexivity.
    rewrite Hst0, Heq. unfold headers_update. cbn [fold_left fst snd].
    now rewrite header_set_twice.
  - intros Hne [= Heq]. apply Hne. now apply str_int_inj.
Qed.

Lemma request_ids_follow_the_clock_witness :
  let w := __init__ stuck (make_config None (Some "s"%string)) in
  exists r,
    wire (snd (get_balances (snd (get_balances w)))) = [r; r] /\
    req_json r = Some [("request_id", Scalar (SStr "1700000000000000"))]%string.
Proof.
  cbv zeta.
  destruct (request_ids_follow_the_clock
              (__init__ stuck (make_config None (Some "s"%string))) eq_refl)
    as (r1 & r2 & Hw & Hj & _ & Heq & _).
  exists r1. rewrite <- (Heq eq_refl) in Hw. split; [exact Hw | exact Hj].
Defined.

(** ** What the signing engine cannot tell apart *)

Section MapValues.
Context {V : Type} (f : V -> V).

Lemma dict_get_map_values (d : list (string * V)) (k : string) :
  dict_get (map (fun kv => (fst kv, f (snd kv))) d) k = option_map f (dict_get d k).
Proof.
  induction d as [|[k' v] d IH]; simpl; [reflexivity|].
  now destruct (String.eqb k' k).
Qed.

Lemma dict_wf_map_values (d : list (string * V)) :
  dict_wf d -> dict_wf (map (fun kv => (fst kv, f (snd kv))) d).
Proof.
  unfold dict_wf, dict_keys.
  assert (Hk : map fst (map (fun kv => (fst kv, f (snd kv))) d) = map fst d).
  { induction d as [|[k v] d IH]; simpl; [reflexivity | now rewrite IH]. }
  now rewrite Hk.
Qed.

Lemma sort_map_values (d : list (string * V)) :
  dict_wf d ->
  Forall2 (fun a b => fst a = fst b /\ snd b = f (snd a))
          (spec_sort_by_key d)
          (spec_sort_by_key (map (fun kv => (fst kv, f (snd kv))) d)).
Proof.
  intros Hwf.
  apply (same_lookup_sort (fun a b => b = f a)); [exact Hwf | |].
  - now apply dict_wf_map_values.
  - intros k. rewrite dict_get_map_values. now destruct (dict_get d k).
Qed.
End MapValues.

Lemma stringify_value_strings (v : value) :
  value_wf v -> spec_value_strings (stringify v) = spec_value_strings v.
Proof.
  destruct v as [s|m]; simpl; [reflexivity|]. intros Hwf.
  pose proof (sort_map_values stringify_scalar m Hwf) as Hall.
  induction Hall as [|a b ta tb [_ Hb] _ IH]; [reflexivity|].
  simpl. rewrite Hb. simpl. now rewrite IH.
Qed.

Lemma stringify_params_wf (p : pydict) : params_wf p -> params_wf (stringify_params p).
Proof.
  intros [Hwf Hv]. split; [now apply dict_wf_map_values|].
  unfold stringify_params. apply Forall_map. eapply Forall_impl; [exact Hv|].
  intros [k [s|m]]; simpl; [auto|]. apply dict_wf_map_values.
Qed.

Lemma stringify_value_text (p : pydict) :
  params_wf p -> spec_value_text (stringify_params p) = spec_value_text p.
Proof.
  intros [Hwf Hv]. unfold spec_value_text. f_equal.
  pose proof (sort_map_values stringify p Hwf) as Hall.
  assert (Hs : Forall (fun kv => value_wf (snd kv)) (spec_sort_by_key p))
    by (unfold spec_sort_by_key; now rewrite merge_sort_Permutation).
  fold (stringify_params p) in Hall.
  induction Hall as [|a b ta tb [_ Hb] _ IH]; [reflexivity|].
  apply Forall_cons in Hs as [Ha Hs]. simpl.
  rewrite Hb, (stringify_value_strings _ Ha). f_equal. now apply IH.
Qed.

(** X14. The signing engine sees a value only through [str]: replacing
    every scalar of a parameter set, nested ones included, by its string
    form leaves the signature unchanged, so the integer 1 signs like the
    string ["1"], [True] like ["True"] and [None] like ["None"]. *)
Theorem signature_sees_only_strings (cfg : DexTradeConfig) (p : pydict) :
  params_wf p ->
  _generate_signature cfg (stringify_params p) = _generate_signature cfg p.
Proof.
  intros Hwf. unfold _generate_signature.
  destruct (truthy (secret cfg)); simpl; [|reflexivity].
  rewrite !signing_input_spec by (try apply stringify_params_wf; exact Hwf).
  unfold spec_signing_string. now rewrite stringify_value_text.
Qed.

Lemma signature_sees_only_strings_witness :
  _generate_signature (make_config None (Some "s"%string))
    [("iso", Scalar (SStr "USDT")); ("new", Scalar (SStr "1"));
     ("opts", Mapping [("fast", SStr "True"); ("memo", SStr "None")])]%string
  = _generate_signature (make_config None (Some "s"%string))
      [("iso", Scalar (SStr "USDT")); ("new", Scalar (SInt 1));
       ("opts", Mapping [("fast", SBool true); ("memo", SNone)])]%string.
Proof.
  apply (signature_sees_only_strings (make_config None (Some "s"%string))
           [("iso", Scalar (SStr "USDT")); ("new", Scalar (SInt 1));
            ("opts", Mapping [("fast", SBool true); ("memo", SNone)])]%string).
  apply (bool_decide_unpack _). vm_compute. exact I.
Defined.

(** X15. The secret is appended to the value text without a separator, so
    the signature does not fix where the values end and the secret begins:
    two parameter sets under two non-empty secrets get the same signature
    whenever value text followed by secret is the same string.  The
    signature of the empty parameter set is the digest of the secret
    alone. *)
Theorem signature_does_not_delimit_secret (c1 c2 : DexTradeConfig) (p1 p2 : pydict) :
  truthy (secret c1) = true -> truthy (secret c2) = true ->
  params_wf p1 -> params_wf p2 ->
  (spec_value_text p1 ++ the_str (secret c1))%string
  = (spec_value_text p2 ++ the_str (secret c2))%string ->
  _generate_signature c1 p1 = _generate_signature c2 p2 /\
  _generate_signature c1 [] = Ok (Sha256.hexdigest (the_str (secret c1))).
Proof.
  intros H1 H2 Hwf1 Hwf2 Heq. split.
  - rewrite !generate_signature_spec by assumption.
    unfold spec_sign, spec_signing_string. now rewrite Heq.
  - rewrite generate_signature_spec; [reflexivity | exact H1 | split; constructor].
Qed.

Lemma signature_does_not_delimit_secret_witness :
  _generate_signature (make_config None (Some "ys"%string))
                      [("a", Scalar (SStr "x"))]%string
  = _generate_signature (make_config None (Some "s"%string))
                        [("a", Scalar (SStr "xy"))]%string.
Proof.
  apply (signature_does_not_delimit_secret
           (make_config None (Some "ys"%string)) (make_config None (Some "s"%string))
           [("a", Scalar (SStr "x"))]%string [("a", Scalar (SStr "xy"))]%string).
  - reflexivity.
  - reflexivity.
  - apply (bool_decide_unpack _). vm_compute. exact I.
  - apply (bool_decide_unpack _). vm_compute. exact I.
  - reflexivity.
Defined.
